(** * Weather: the PFI derivation pipeline of [script.js]

    A shallow embedding of the pure core of the weather page: the
    per-day derivations ([calculatePFI], [detectHazards],
    [determinePrecipitationType]), the aggregator ([generateComparisons],
    [generateComparisonData], [generateWeekPFI]), its mock-mode sibling
    ([generateMockComparisons]) and the part of [displayResults] that
    decides what each slot of the page shows; then the earlier variant of
    the aggregator kept in the second copy of the script, and one run of
    the app ([initWeatherApp], [showFallbackData], [showError],
    [retryApp]) with the outcome of the fetch as an input.

    Modelling decisions, all taken from the way the script uses its data:

    - A JavaScript number is an exact rational or [NaN].  Rounding of
      binary floating point and the infinities are not represented; the
      script only adds, subtracts, multiplies by constants and halves.
    - Reading an array past its end yields [undefined].  Every use of such
      a cell in the script is arithmetic, a comparison or [|| 0], and in
      all three [undefined] behaves as [NaN]; a missing cell is [NaN].
    - A JSON [null] cell counts as 0 in every use the script makes of a
      cell (arithmetic, a comparison, [|| 0]); it is the number 0 here.
    - The [pfi] of a mock entry is a number, [null] or [undefined]: the
      mock path tells the last two apart ([pfi !== undefined]).  A [null]
      in [weekPFI.pfiValues] is kept as it is; [todayPFI] is only ever
      passed to [Math.round], where [null] counts as 0, and is a number
      here.
    - A calendar date is the number of the day it denotes (days since
      1970-01-01).  The date-only strings of the API are parsed as
      midnight UTC and formatted in the local time zone, an explicit
      argument [zone]: [new Date(d).toLocaleDateString('en-US',
      {weekday: 'short'})] is [weekdayShort (localDate zone d)].  The
      wall clock [new Date()] is an explicit argument [now], the local
      calendar date.
    - A thrown [Error] is a value of [result].
    - An icon is the name of its Material Symbols glyph; the script wraps
      that name in a [span] of class [material-symbols-sharp]. *)

From Stdlib Require Import QArith ZArith List String Bool Lia Lqa Qround Qabs.
Import ListNotations.

Local Open Scope Q_scope.

(** ** JavaScript numbers *)

Module Num.

Inductive number : Type :=
| Fin (q : Q)
| NaN.

Arguments Fin q%_Q.

Definition add (a b : number) : number :=
  match a, b with
  | Fin x, Fin y => Fin (x + y)
  | _, _ => NaN
  end.

Definition sub (a b : number) : number :=
  match a, b with
  | Fin x, Fin y => Fin (x - y)
  | _, _ => NaN
  end.

Definition mul (a b : number) : number :=
  match a, b with
  | Fin x, Fin y => Fin (x * y)
  | _, _ => NaN
  end.

(** The script only divides by the literal 2; a division by zero, which
    would give an infinity, is outside the model and yields [NaN]. *)
Definition div (a b : number) : number :=
  match a, b with
  | Fin x, Fin y => if Qeq_bool y 0 then NaN else Fin (x / y)
  | _, _ => NaN
  end.

(** The four comparisons; any comparison with [NaN] is [false]. *)
Definition gt (a b : number) : bool :=
  match a, b with
  | Fin x, Fin y => match x ?= y with Gt => true | _ => false end
  | _, _ => false
  end.

Definition lt (a b : number) : bool :=
  match a, b with
  | Fin x, Fin y => match x ?= y with Lt => true | _ => false end
  | _, _ => false
  end.

Definition ge (a b : number) : bool :=
  match a, b with
  | Fin x, Fin y => match x ?= y with Lt => false | _ => true end
  | _, _ => false
  end.

Definition le (a b : number) : bool :=
  match a, b with
  | Fin x, Fin y => match x ?= y with Gt => false | _ => true end
  | _, _ => false
  end.

(** [x || 0]: zero and [NaN] are falsy. *)
Definition or0 (a : number) : number :=
  match a with
  | Fin x => if Qeq_bool x 0 then Fin 0 else Fin x
  | NaN => Fin 0
  end.

(** [Math.round]: the nearest integer, halves towards plus infinity. *)
Definition round (a : number) : number :=
  match a with
  | Fin x => Fin (inject_Z (Qfloor (x + (1 # 2))))
  | NaN => NaN
  end.

(** [Math.abs]. *)
Definition abs (a : number) : number :=
  match a with
  | Fin x => Fin (Qabs x)
  | NaN => NaN
  end.

(** Numeric equality of two numbers; [NaN] only matches [NaN] here, as
    "both computations failed". *)
Definition eqv (a b : number) : Prop :=
  match a, b with
  | Fin x, Fin y => x == y
  | NaN, NaN => True
  | _, _ => False
  end.

Definition is_zero (a : number) : Prop := eqv a (Fin 0).

Definition of_Z (z : Z) : number := Fin (inject_Z z).

End Num.

Import Num.

Declare Scope num_scope.
Delimit Scope num_scope with num.
Infix "+" := Num.add : num_scope.
Infix "-" := Num.sub : num_scope.
Infix "*" := Num.mul : num_scope.
Infix "/" := Num.div : num_scope.
Infix ">?" := Num.gt (at level 70, no associativity) : num_scope.
Infix "<?" := Num.lt (at level 70, no associativity) : num_scope.
Infix ">=?" := Num.ge (at level 70, no associativity) : num_scope.
Infix "<=?" := Num.le (at level 70, no associativity) : num_scope.

(** [a[i]] for an array of numbers. *)
Definition cell (a : list number) (i : nat) : number := nth i a NaN.

(** ** Results of code that may throw *)

Inductive Error : Type :=
| ErrorMsg (message : string)   (* [throw new Error(message)] *)
| TypeError.                    (* a property read on [undefined] or [null] *)

Inductive result (A : Type) : Type :=
| Ok (a : A)
| Throw (e : Error).

Arguments Ok {A} a.
Arguments Throw {A} e.

(** ** Calendar dates *)

Definition Date : Type := Z.

Definition weekdayNames : list string :=
  ["Sun"; "Mon"; "Tue"; "Wed"; "Thu"; "Fri"; "Sat"]%string.

(** Day 0 (1970-01-01) was a Thursday. *)
Definition weekdayIndex (d : Date) : nat := Z.to_nat ((d + 4) mod 7)%Z.

Definition weekdayShort (d : Date) : string :=
  nth (weekdayIndex d) weekdayNames EmptyString.

(** [date.setDate(date.getDate() + i)]. *)
Definition addDays (d : Date) (i : nat) : Date := (d + Z.of_nat i)%Z.

(** The local time zone: its offset from UTC, in minutes east, at
    midnight UTC of a day (it may change with the day, as with daylight
    saving time). *)
Definition TimeZone : Type := Date -> Z.

(** [new Date('YYYY-MM-DD')] is midnight UTC of that day, and
    [toLocaleDateString] formats that instant in the local zone: the
    local calendar date is the day itself at or east of UTC and the day
    before west of UTC. *)
Definition localDate (zone : TimeZone) (d : Date) : Date :=
  (d + zone d / 1440)%Z.

(** ** The data model *)

(** [weatherData.daily]: parallel arrays, one cell per day. *)
Record Daily : Type := mkDaily {
  time : list Date;
  apparent_temperature_min : list number;
  apparent_temperature_max : list number;
  cloudcover_mean : list number;
  precipitation_probability_max : list number;
  precipitation_sum : list number;
  windspeed_10m_max : list number;
  relative_humidity_2m_mean : list number
}.

Record WeatherData : Type := mkWeatherData {
  current_temperature_2m : number;
  daily : Daily
}.

Record Precipitation : Type := mkPrecipitation {
  rain : number;
  snow : number
}.

(** One entry of [pfiData]. *)
Record PfiDay : Type := mkPfiDay {
  date : option Date;
  pfi : number;
  avgApparentTemp : number;
  cloudcover : number;
  precipitation : option Precipitation
}.

Inductive PrecipType : Type := type_rain | type_snow.

Record PrecipitationData : Type := mkPrecipitationData {
  type : PrecipType;
  probability : number
}.

Record PrecipDisplay : Type := mkPrecipDisplay {
  p_icon : string;
  p_label : string;
  p_show : bool
}.

Inductive Hazard : Type :=
| FireRisk
| ExtremeHeat
| HeavyRain
| SnowIce
| ExtremeCold
| StrongWinds.

Record HazardDisplay : Type := mkHazardDisplay {
  h_icon : string;
  h_label : string;
  h_show : bool;
  h_colorClass : option string
}.

(** ** Precipitation logic *)

Local Open Scope string_scope.
Local Open Scope num_scope.

Definition determinePrecipitationType (rainProb snowProb : number)
  : option PrecipitationData :=
  if (rainProb <=? Fin 30) && (snowProb <=? Fin 30) then None
  else if rainProb >? snowProb
       then Some (mkPrecipitationData type_rain rainProb)
       else Some (mkPrecipitationData type_snow snowProb).

(** [{ icon: '', label: '', show: false }] *)
Definition noPrecipDisplay : PrecipDisplay :=
  mkPrecipDisplay EmptyString EmptyString false.

Definition getPrecipitationDisplay (precipitationData : option PrecipitationData)
  : PrecipDisplay :=
  match precipitationData with
  | None => noPrecipDisplay
  | Some pd =>
      match type pd with
      | type_rain =>
          mkPrecipDisplay "rainy"
            (if probability pd >? Fin 60 then "Rain expected" else "Likely to rain")
            true
      | type_snow =>
          mkPrecipDisplay "ac_unit"
            (if probability pd >? Fin 60 then "Snow expected" else "Likely to snow")
            true
      end
  end.

(** ** Hazard detection *)

(** The body of the loop of [detectHazards] for day [i]. *)
Definition detectHazard (daily : Daily) (i : nat) : option Hazard :=
  let tempMax := cell (apparent_temperature_max daily) i in
  let tempMin := cell (apparent_temperature_min daily) i in
  let humidity := cell (relative_humidity_2m_mean daily) i in
  let wind := cell (windspeed_10m_max daily) i in
  let precipitation := cell (precipitation_sum daily) i in
  let precipProb := cell (precipitation_probability_max daily) i in
  if (tempMax >=? Fin 32) && (humidity <=? Fin 30) && (wind >=? Fin 25) then Some FireRisk
  else if tempMax >=? Fin 38 then Some ExtremeHeat
  else if (precipitation >=? Fin 30) && (precipProb >=? Fin 70) then Some HeavyRain
  else if (precipitation >? Fin 0) && (tempMin <=? Fin 0) then Some SnowIce
  else if tempMin <=? Fin 0 then Some ExtremeCold
  else if wind >=? Fin 50 then Some StrongWinds
  else None.

(** [for (let i = 0; i < daily.time.length; i++) hazards.push(...)] *)
Definition detectHazards (weatherData : WeatherData) : list (option Hazard) :=
  map (detectHazard (daily weatherData))
      (seq 0 (List.length (time (daily weatherData)))).

(** [{ icon: '', label: '', show: false }] *)
Definition noHazardDisplay : HazardDisplay :=
  mkHazardDisplay EmptyString EmptyString false None.

(** [hazardType] is [null], [undefined] or one of the six names, so the
    [default] case of the [switch] is never taken. *)
Definition getHazardDisplay (hazardType : option Hazard) : HazardDisplay :=
  match hazardType with
  | None => noHazardDisplay
  | Some FireRisk => mkHazardDisplay "mode_heat" "Fire Risk" true (Some "hazard-hot")
  | Some ExtremeHeat => mkHazardDisplay "heat" "Extreme Heat" true (Some "hazard-hot")
  | Some HeavyRain => mkHazardDisplay "flood" "Heavy Rain" true (Some "hazard-cold")
  | Some SnowIce => mkHazardDisplay "severe_cold" "Snow/Ice" true (Some "hazard-cold")
  | Some ExtremeCold => mkHazardDisplay "severe_cold" "Extreme Cold" true (Some "hazard-cold")
  | Some StrongWinds => mkHazardDisplay "air" "Strong Winds" true (Some "hazard-wind")
  end.

(** ** The PFI calculator *)

(** The body of the loop of [calculatePFI] for day [i]. *)
Definition calculatePFIDay (daily : Daily) (i : nat) : PfiDay :=
  let apparentTempMin := cell (apparent_temperature_min daily) i in
  let apparentTempMax := cell (apparent_temperature_max daily) i in
  let cloudcover := cell (cloudcover_mean daily) i in
  let precipitationProb := or0 (cell (precipitation_probability_max daily) i) in
  let avgApparentTemp := (apparentTempMin + apparentTempMax) / Fin 2 in
  let cloudAdj := Fin 0.02 * (Fin 50 - cloudcover) in
  let pfi := avgApparentTemp + cloudAdj in
  let avgTemp := (apparentTempMin + apparentTempMax) / Fin 2 in
  let precipitation :=
    mkPrecipitation (if avgTemp >? Fin 0 then precipitationProb else Fin 0)
                    (if avgTemp <=? Fin 0 then precipitationProb else Fin 0) in
  mkPfiDay (nth_error (time daily) i) pfi avgApparentTemp cloudcover
           (Some precipitation).

(** [for (let i = 0; i < daily.time.length; i++) pfiData.push(...)] *)
Definition calculatePFI (weatherData : WeatherData) : list PfiDay :=
  map (calculatePFIDay (daily weatherData))
      (seq 0 (List.length (time (daily weatherData)))).

(** ** The comparison aggregator *)

Inductive Arrow : Type :=
| arrow_up      (* the up arrow *)
| arrow_down    (* the down arrow *)
| arrow_flat.   (* '-' *)

Inductive Trend : Type :=
| significantly_hotter
| noticeably_hotter
| hotter
| significantly_colder
| noticeably_colder
| colder
| same.

(** The two shapes of [fullDisplay] and [htmlDisplay]: the arrow alone, or
    the arrow followed by the percentage (separated by a blank in
    [fullDisplay], by a line break in [htmlDisplay]) and a percent sign. *)
Inductive PercentText : Type :=
| ArrowOnly (a : Arrow)
| ArrowPercent (a : Arrow) (p : number).

Record ComparisonData : Type := mkComparisonData {
  arrow : Arrow;
  percentage : number;
  comparison : Trend;
  fullDisplay : PercentText;
  htmlDisplay : PercentText
}.

Definition generateComparisonData (difference : number) (dayName : string)
  : ComparisonData :=
  let percentage := round (difference * Fin 5) in
  let '(arrow, comparison) :=
    if percentage >? Fin 35 then (arrow_up, significantly_hotter)
    else if percentage >? Fin 15 then (arrow_up, noticeably_hotter)
    else if percentage >? Fin 5 then (arrow_up, hotter)
    else if percentage <? Fin (-35) then (arrow_down, significantly_colder)
    else if percentage <? Fin (-15) then (arrow_down, noticeably_colder)
    else if percentage <? Fin (-5) then (arrow_down, colder)
    else (arrow_flat, same) in
  let fullDisplay :=
    if abs percentage >=? Fin 5 then ArrowPercent arrow (abs percentage)
    else ArrowOnly arrow in
  let htmlDisplay :=
    if abs percentage >=? Fin 5 then ArrowPercent arrow (abs percentage)
    else ArrowOnly arrow in
  mkComparisonData arrow (abs percentage) comparison fullDisplay htmlDisplay.

(** [weekPFI]; a [null] entry of [pfiValues] is [None]. *)
Record WeekPFI : Type := mkWeekPFI {
  dayNames : list string;
  pfiValues : list (option number)
}.

(** Both loops of [generateWeekPFI] run [i] over 1..6.  Every [pfi] held
    by a [PfiDay] is the result of arithmetic, so [typeof ... === 'number']
    holds whenever the entry exists. *)
Definition generateWeekPFI (zone : TimeZone) (now : Date) (pfiData : list PfiDay)
  : WeekPFI :=
  let dayNames :=
    map (fun i =>
           match nth_error pfiData i with
           | Some d =>
               match date d with
               | Some apiDate => weekdayShort (localDate zone apiDate)
               | None => weekdayShort (addDays now i)
               end
           | None => weekdayShort (addDays now i)
           end)
        (seq 1 6) in
  let pfiValues :=
    map (fun i =>
           match nth_error pfiData i with
           | Some d => Some (pfi d)
           | None => None
           end)
        (seq 1 6) in
  mkWeekPFI dayNames pfiValues.

(** The object returned by [generateComparisons] and by
    [generateMockComparisons]; the two differ in the shape of
    [todayComparison]. *)
Record ComparisonResult (TC : Type) : Type := mkComparisonResult {
  todayPFI : number;
  todayComparison : TC;
  weekPFI : WeekPFI;
  todayPrecipitation : PrecipDisplay;
  weekPrecipitation : list PrecipDisplay;
  todayHazard : HazardDisplay;
  weekHazards : list HazardDisplay
}.

Arguments mkComparisonResult {TC}.
Arguments todayPFI {TC}.
Arguments todayComparison {TC}.
Arguments weekPFI {TC}.
Arguments todayPrecipitation {TC}.
Arguments weekPrecipitation {TC}.
Arguments todayHazard {TC}.
Arguments weekHazards {TC}.

(** [array.slice(1)] *)
Definition slice1 {A : Type} (a : list A) : list A := skipn 1 a.

(** [hazards[i]] as [getHazardDisplay] sees it: [undefined] and [null] are
    both falsy. *)
Definition hazardAt (hazards : list (option Hazard)) (i : nat) : option Hazard :=
  match nth_error hazards i with
  | Some h => h
  | None => None
  end.

(** [dayData && dayData.precipitation ? ... : { show: false }] *)
Definition precipDisplayOf (dayData : option PfiDay) : PrecipDisplay :=
  match dayData with
  | Some d =>
      match precipitation d with
      | Some p =>
          getPrecipitationDisplay (determinePrecipitationType (rain p) (snow p))
      | None => noPrecipDisplay
      end
  | None => noPrecipDisplay
  end.

Definition notEnoughData : Error := ErrorMsg "Not enough weather data".

Definition generateComparisons (zone : TimeZone) (now : Date)
    (pfiData : list PfiDay) (currentTemp : number) (weatherData : WeatherData)
  : result (ComparisonResult ComparisonData) :=
  if (List.length pfiData <? 7)%nat then Throw notEnoughData
  else
    match nth_error pfiData 0, nth_error pfiData 1 with
    | Some yesterday, Some today =>
        let todayVsYesterdayDiff := pfi today - pfi yesterday in
        let todayComparison := generateComparisonData todayVsYesterdayDiff "Today" in
        let weekPFI := generateWeekPFI zone now (slice1 pfiData) in
        let todayPrecipitation := precipDisplayOf (Some today) in
        let slicedData := slice1 pfiData in
        let weekPrecipitation :=
          map (fun i => precipDisplayOf (nth_error slicedData i)) (seq 1 6) in
        let hazards := detectHazards weatherData in
        let todayHazard := getHazardDisplay (hazardAt hazards 1) in
        let slicedHazards := slice1 hazards in
        let weekHazards :=
          map (fun i => getHazardDisplay (hazardAt slicedHazards i)) (seq 1 6) in
        Ok (mkComparisonResult (pfi today) todayComparison weekPFI
              todayPrecipitation weekPrecipitation todayHazard weekHazards)
    | _, _ => Throw TypeError
    end.

(** The live path of [initWeatherApp], after the fetch. *)
Definition liveComparisons (zone : TimeZone) (now : Date)
    (weatherData : WeatherData)
  : result (ComparisonResult ComparisonData) :=
  let pfiData := calculatePFI weatherData in
  generateComparisons zone now pfiData (current_temperature_2m weatherData) weatherData.

(** ** Mock mode *)

Module Mock.

(** The [pfi] property of an entry: absent ([undefined]), [null] or a
    number.  The script tells [undefined] from [null] here: it tests
    [pfi !== undefined] and subtracts the raw value. *)
Inductive Pfi : Type :=
| pfi_undefined
| pfi_null
| pfi_number (n : number).

(** One entry of [window.mockConfig].  [precipitation] and [hazard] are
    only tested for truthiness, so for them [undefined] and [null] are
    both [None]. *)
Record MockDay : Type := mkMockDay {
  day : string;
  pfi : Pfi;
  precipitation : option Precipitation;
  hazard : option Hazard
}.

(** [window.mockConfig] as shipped. *)
Definition mockConfig : list MockDay :=
  [ mkMockDay "yesterday" (pfi_number (Fin 21)) (Some (mkPrecipitation (Fin 15) (Fin 5))) None;
    mkMockDay "today" (pfi_number (Fin 7)) (Some (mkPrecipitation (Fin 40) (Fin 20))) (Some HeavyRain);
    mkMockDay "tomorrow" (pfi_number (Fin 38)) (Some (mkPrecipitation (Fin 10) (Fin 0))) (Some ExtremeHeat);
    mkMockDay "day3" (pfi_number (Fin 16)) (Some (mkPrecipitation (Fin 70) (Fin 15))) None;
    mkMockDay "day4" (pfi_number (Fin 24)) (Some (mkPrecipitation (Fin 25) (Fin 0))) None;
    mkMockDay "day5" (pfi_number (Fin 19)) (Some (mkPrecipitation (Fin 0) (Fin 0))) (Some StrongWinds);
    mkMockDay "day6" (pfi_number (Fin 0)) (Some (mkPrecipitation (Fin 20) (Fin 40))) (Some SnowIce);
    mkMockDay "day7" (pfi_number (Fin 43)) (Some (mkPrecipitation (Fin 30) (Fin 25))) (Some FireRisk) ].

End Mock.

(** The globals read by the mock path. *)
Record Window : Type := mkWindow {
  TESTING_MODE : bool;
  mockConfig : list Mock.MockDay
}.

Definition getMockConfig (window : Window) (day : string) : option Mock.MockDay :=
  if negb (TESTING_MODE window) then None
  else find (fun d => String.eqb (Mock.day d) day) (mockConfig window).

(** A [pfi] used in a subtraction: [undefined] becomes [NaN], [null]
    becomes 0. *)
Definition toNumber (v : Mock.Pfi) : number :=
  match v with
  | Mock.pfi_undefined => NaN
  | Mock.pfi_null => Fin 0
  | Mock.pfi_number n => n
  end.

(** The entry pushed on [pfiValues] for a mock day: the [pfi] itself when
    it is not [undefined], so a [null] is pushed as it is (here [None]),
    and the default 22 when it is [undefined]. *)
Definition pushedPfi (v : Mock.Pfi) : option number :=
  match v with
  | Mock.pfi_undefined => Some (Fin 22)
  | Mock.pfi_null => None
  | Mock.pfi_number n => Some n
  end.

(** [todayPFI] is read by [Math.round] alone, where [null] counts as 0. *)
Definition nullAsZero (v : option number) : number :=
  match v with
  | Some n => n
  | None => Fin 0
  end.

(** [todayComparison] of the mock path carries the trend only. *)
Record MockComparison : Type := mkMockComparison {
  mock_comparison : Trend
}.

Definition mockDayOrder : list string :=
  ["yesterday"; "today"; "tomorrow"; "day3"; "day4"; "day5"; "day6"; "day7"].

Definition weekMockDays : list string :=
  ["tomorrow"; "day3"; "day4"; "day5"; "day6"; "day7"].

(** The threshold chain of [generateMockComparisons]. *)
Definition mockTrend (todayVsYesterdayDiff : number) : Trend :=
  if todayVsYesterdayDiff >? Fin 7 then significantly_hotter
  else if todayVsYesterdayDiff >? Fin 3 then noticeably_hotter
  else if todayVsYesterdayDiff >? Fin 1 then hotter
  else if todayVsYesterdayDiff <? Fin (-7) then significantly_colder
  else if todayVsYesterdayDiff <? Fin (-3) then noticeably_colder
  else if todayVsYesterdayDiff <? Fin (-1) then colder
  else same.

Definition generateMockComparisons (window : Window) (now : Date)
  : result (ComparisonResult MockComparison) :=
  match getMockConfig window "today" with
  | None => Throw TypeError          (* [todayMock.pfi] on a missing entry *)
  | Some todayMock =>
      let yesterdayPfi :=
        match getMockConfig window "yesterday" with
        | Some yesterdayMock => Mock.pfi yesterdayMock
        | None => Mock.pfi_number (Fin 20)
        end in
      let todayVsYesterdayDiff :=
        toNumber (Mock.pfi todayMock) - toNumber yesterdayPfi in
      let todayComparison := mkMockComparison (mockTrend todayVsYesterdayDiff) in
      let dayNames := map (fun i => weekdayShort (addDays now i)) (seq 1 6) in
      let pfiValues :=
        map (fun dayKey =>
               match getMockConfig window dayKey with
               | Some mockData => pushedPfi (Mock.pfi mockData)
               | None => Some (Fin 22)
               end)
            mockDayOrder in
      let todayPrecipitation :=
        match Mock.precipitation todayMock with
        | Some p =>
            getPrecipitationDisplay (determinePrecipitationType (rain p) (snow p))
        | None => noPrecipDisplay
        end in
      let weekPrecipitation :=
        map (fun dayKey =>
               match getMockConfig window dayKey with
               | Some mockData =>
                   match Mock.precipitation mockData with
                   | Some p =>
                       getPrecipitationDisplay
                         (determinePrecipitationType (rain p) (snow p))
                   | None => noPrecipDisplay
                   end
               | None => noPrecipDisplay
               end)
            weekMockDays in
      let todayHazard := getHazardDisplay (Mock.hazard todayMock) in
      let weekHazards :=
        map (fun dayKey =>
               match getMockConfig window dayKey with
               | Some mockData => getHazardDisplay (Mock.hazard mockData)
               | None => noHazardDisplay
               end)
            weekMockDays in
      Ok (mkComparisonResult (nullAsZero (nth 1 pfiValues None)) todayComparison
            (mkWeekPFI dayNames (skipn 2 pfiValues))
            todayPrecipitation weekPrecipitation todayHazard weekHazards)
  end.

(** ** Rendering *)

(** [displayResults] reads [todayComparison.comparison] from either shape. *)
Class HasComparison (TC : Type) : Type := comparisonOf : TC -> Trend.

#[export] Instance ComparisonData_HasComparison : HasComparison ComparisonData :=
  comparison.

#[export] Instance MockComparison_HasComparison : HasComparison MockComparison :=
  mock_comparison.

(** [element.style.display] *)
Inductive DisplayStyle : Type :=
| display_flex
| display_none
| display_unset.   (* whatever the page had before the script ran *)

(** [.precipitation-today] and [.precipitation-week] with their children. *)
Record PrecipEl : Type := mkPrecipEl {
  pe_display : DisplayStyle;
  pe_icon_innerHTML : string;
  pe_label_textContent : string
}.

(** [.hazard-today] and [.hazard-week] with their children. *)
Record HazardEl : Type := mkHazardEl {
  he_display : DisplayStyle;
  he_icon_className : string;
  he_icon_innerHTML : string;
  he_label_className : string;
  he_label_textContent : string
}.

(** The text of a PFI element: a rounded number followed by the degree
    sign, the two dashes of "no data", or what the page had before. *)
Inductive PfiText : Type :=
| Degrees (n : number)
| Dashes
| PageText (s : string).

(** One [.day-item]. *)
Record DayItem : Type := mkDayItem {
  day_name : string;
  day_pfi : PfiText;
  precipitation_week : PrecipEl;
  hazard_week : HazardEl
}.

(** The part of the page [displayResults] writes to. *)
Record Dom : Type := mkDom {
  pfi_value : PfiText;
  comparison_innerHTML : string;
  precipitation_today : PrecipEl;
  hazard_today : HazardEl;
  day_items : list DayItem
}.

Definition comparisonText (t : Trend) : string :=
  match t with
  | significantly_colder => "Significantly colder<br>than yesterday"
  | noticeably_colder => "Noticeably colder<br>than yesterday"
  | colder => "A bit colder than<br>yesterday"
  | significantly_hotter => "Significantly hotter<br>than yesterday"
  | noticeably_hotter => "Noticeably hotter<br>than yesterday"
  | hotter => "A bit hotter than<br>yesterday"
  | same => "About the same as<br>yesterday"
  end.

(** The template [`prefix ${colorClass}`]. *)
Definition withColorClass (prefix : string) (h : HazardDisplay) : string :=
  (prefix ++ " " ++
   match h_colorClass h with
   | Some c => c
   | None => "undefined"
   end)%string.

(** Today's hazard and precipitation elements (hazard takes priority). *)
Definition displayToday (hazard : HazardDisplay) (precip : PrecipDisplay)
    (hazardToday : HazardEl) (precipitationToday : PrecipEl)
  : HazardEl * PrecipEl :=
  if h_show hazard then
    (mkHazardEl display_flex
       (withColorClass "hazard-icon" hazard) (h_icon hazard)
       (withColorClass "hazard-label" hazard) (h_label hazard),
     mkPrecipEl display_none
       (pe_icon_innerHTML precipitationToday)
       (pe_label_textContent precipitationToday))
  else if p_show precip then
    (mkHazardEl display_none
       (he_icon_className hazardToday) (he_icon_innerHTML hazardToday)
       (he_label_className hazardToday) (he_label_textContent hazardToday),
     mkPrecipEl display_flex (p_icon precip) (p_label precip))
  else
    (mkHazardEl display_none
       (he_icon_className hazardToday) (he_icon_innerHTML hazardToday)
       (he_label_className hazardToday) (he_label_textContent hazardToday),
     mkPrecipEl display_none
       (pe_icon_innerHTML precipitationToday)
       (pe_label_textContent precipitationToday)).

(** [Math.round(v)] of an entry of [pfiValues]; [null] rounds to 0. *)
Definition roundPfi (v : option number) : number :=
  match v with
  | Some n => round n
  | None => Fin 0
  end.

(** [a && a[index] && a[index].show]: the entry when it is on show. *)
Definition shownHazard (a : list HazardDisplay) (index : nat) : option HazardDisplay :=
  match nth_error a index with
  | Some h => if h_show h then Some h else None
  | None => None
  end.

Definition shownPrecipitation (a : list PrecipDisplay) (index : nat)
  : option PrecipDisplay :=
  match nth_error a index with
  | Some p => if p_show p then Some p else None
  | None => None
  end.

(** The callback of [dayNames.forEach] applied to an existing day item. *)
Definition displayDay {TC : Type} (comparisons : ComparisonResult TC)
    (dayName : string) (index : nat) (dayItem : DayItem) : DayItem :=
  let dayPfi :=
    match nth_error (pfiValues (weekPFI comparisons)) index with
    | Some v => Degrees (roundPfi v)
    | None => Dashes
    end in
  let precipitationWeek := precipitation_week dayItem in
  let hazardWeek := hazard_week dayItem in
  match shownHazard (weekHazards comparisons) index with
  | Some h =>
      mkDayItem dayName dayPfi
        (mkPrecipEl display_none
           (pe_icon_innerHTML precipitationWeek)
           (pe_label_textContent precipitationWeek))
        (mkHazardEl display_flex
           (withColorClass "hazard-icon" h) (h_icon h)
           (he_label_className hazardWeek) (he_label_textContent hazardWeek))
  | None =>
      match shownPrecipitation (weekPrecipitation comparisons) index with
      | Some p =>
          mkDayItem dayName dayPfi
            (mkPrecipEl display_flex (p_icon p)
               (pe_label_textContent precipitationWeek))
            (mkHazardEl display_none
               (he_icon_className hazardWeek) (he_icon_innerHTML hazardWeek)
               (he_label_className hazardWeek) (he_label_textContent hazardWeek))
      | None =>
          mkDayItem dayName dayPfi
            (mkPrecipEl display_none
               (pe_icon_innerHTML precipitationWeek)
               (pe_label_textContent precipitationWeek))
            (mkHazardEl display_none
               (he_icon_className hazardWeek) (he_icon_innerHTML hazardWeek)
               (he_label_className hazardWeek) (he_label_textContent hazardWeek))
      end
  end.

(** [a[i] = v] for an index inside the array. *)
Fixpoint setAt {A : Type} (a : list A) (i : nat) (v : A) : list A :=
  match a, i with
  | [], _ => []
  | _ :: rest, O => v :: rest
  | x :: rest, S j => x :: setAt rest j v
  end.

(** [dayNames.forEach((dayName, index) => ...)] from position [index] on.
    [dayItems[index]] may be [undefined]; the callback then throws on
    [dayItem.querySelector] and the iteration stops with the items
    written so far. *)
Fixpoint displayWeek {TC : Type} (comparisons : ComparisonResult TC)
    (names : list string) (index : nat) (dayItems : list DayItem)
  : list DayItem * option Error :=
  match names with
  | [] => (dayItems, None)
  | dayName :: rest =>
      match nth_error dayItems index with
      | None => (dayItems, Some TypeError)
      | Some dayItem =>
          displayWeek comparisons rest (S index)
            (setAt dayItems index (displayDay comparisons dayName index dayItem))
      end
  end.

(** [displayResults]: the page after the call, and the exception that
    ended it, if any. *)
Definition displayResults {TC : Type} `{HasComparison TC}
    (comparisons : ComparisonResult TC) (dom : Dom) : Dom * option Error :=
  let pfiValue := Degrees (round (todayPFI comparisons)) in
  let comparisonText := comparisonText (comparisonOf (todayComparison comparisons)) in
  let '(hazardToday, precipitationToday) :=
    displayToday (todayHazard comparisons) (todayPrecipitation comparisons)
      (hazard_today dom) (precipitation_today dom) in
  let '(dayItems, thrown) :=
    displayWeek comparisons (dayNames (weekPFI comparisons)) 0 (day_items dom) in
  (mkDom pfiValue comparisonText precipitationToday hazardToday dayItems, thrown).

(** What one slot of the page shows after rendering: the hazard alone,
    the precipitation alone, or neither. *)
Inductive SlotShows : DisplayStyle -> DisplayStyle -> Prop :=
| shows_hazard : SlotShows display_flex display_none
| shows_precipitation : SlotShows display_none display_flex
| shows_nothing : SlotShows display_none display_none.

(** ** What the specification says, in its own words *)

(** The inputs of the hazard rules for one day. *)
Record HazardInputs : Type := mkHazardInputs {
  tempMax : number;
  tempMin : number;
  humidity : number;
  wind : number;
  precipSum : number;
  precipProb : number
}.

Definition hazardInputs (daily : Daily) (i : nat) : HazardInputs :=
  mkHazardInputs
    (cell (apparent_temperature_max daily) i)
    (cell (apparent_temperature_min daily) i)
    (cell (relative_humidity_2m_mean daily) i)
    (cell (windspeed_10m_max daily) i)
    (cell (precipitation_sum daily) i)
    (cell (precipitation_probability_max daily) i).

(** The priority list of the hazard detector, highest priority first. *)
Definition hazardRules : list (Hazard * (HazardInputs -> bool)) :=
  [ (FireRisk, fun d => (tempMax d >=? Fin 32) && (humidity d <=? Fin 30) && (wind d >=? Fin 25));
    (ExtremeHeat, fun d => tempMax d >=? Fin 38);
    (HeavyRain, fun d => (precipSum d >=? Fin 30) && (precipProb d >=? Fin 70));
    (SnowIce, fun d => (precipSum d >? Fin 0) && (tempMin d <=? Fin 0));
    (ExtremeCold, fun d => tempMin d <=? Fin 0);
    (StrongWinds, fun d => wind d >=? Fin 50) ].

(** First match wins, no fall-through; no match is no hazard. *)
Definition firstMatch (rules : list (Hazard * (HazardInputs -> bool)))
    (d : HazardInputs) : option Hazard :=
  option_map fst (find (fun rule => snd rule d) rules).

(** The trend bucket of an integral percentage, with strict thresholds. *)
Definition trendOfPercentage (p : Z) : Trend :=
  if (p >? 35)%Z then significantly_hotter
  else if (p >? 15)%Z then noticeably_hotter
  else if (p >? 5)%Z then hotter
  else if (p <? -35)%Z then significantly_colder
  else if (p <? -15)%Z then noticeably_colder
  else if (p <? -5)%Z then colder
  else same.

(** [round(diff * 5)] as an integer. *)
Definition percentageOf (diff : Q) : Z := Qfloor (diff * 5 + (1 # 2))%Q.

(** The three derived values of day [j] of a window; a day the window
    does not have gives [null] and the two empty displays. *)
Definition derivedPfi (weatherData : WeatherData) (j : nat) : option number :=
  option_map pfi (nth_error (calculatePFI weatherData) j).

Definition derivedPrecipitation (weatherData : WeatherData) (j : nat) : PrecipDisplay :=
  precipDisplayOf (nth_error (calculatePFI weatherData) j).

Definition derivedHazard (weatherData : WeatherData) (j : nat) : HazardDisplay :=
  getHazardDisplay (hazardAt (detectHazards weatherData) j).

(** Slot [i] of the three forward arrays holds the values of day [j]. *)
Definition alignedAt (weatherData : WeatherData)
    (r : ComparisonResult ComparisonData) (i j : nat) : Prop :=
  nth_error (pfiValues (weekPFI r)) i = Some (derivedPfi weatherData j) /\
  nth_error (weekPrecipitation r) i = Some (derivedPrecipitation weatherData j) /\
  nth_error (weekHazards r) i = Some (derivedHazard weatherData j).

(** Slot [i] is labelled with the weekday of the date of day [j]. *)
Definition labelledByDay (weatherData : WeatherData)
    (r : ComparisonResult ComparisonData) (i j : nat) : Prop :=
  exists d : Date,
    nth_error (time (daily weatherData)) j = Some d /\
    nth_error (dayNames (weekPFI r)) i = Some (weekdayShort d).

(** The label of slot [i] is computed from the date of day [j]: it is the
    weekday, in the local zone, of midnight UTC of that date. *)
Definition labelledFromDate (zone : TimeZone) (weatherData : WeatherData)
    (r : ComparisonResult ComparisonData) (i j : nat) : Prop :=
  exists d : Date,
    nth_error (time (daily weatherData)) j = Some d /\
    nth_error (dayNames (weekPFI r)) i = Some (weekdayShort (localDate zone d)).

(** The zone is at or east of UTC, or west of it, on every date of a
    window. *)
Definition atOrEastOfUTC (zone : TimeZone) (weatherData : WeatherData) : Prop :=
  forall d : Date, In d (time (daily weatherData)) -> (0 <= zone d < 1440)%Z.

Definition westOfUTC (zone : TimeZone) (weatherData : WeatherData) : Prop :=
  forall d : Date, In d (time (daily weatherData)) -> (-1440 <= zone d < 0)%Z.

(** ** The earlier variant of the aggregator *)

(** The script comes in two copies.  The second, earlier copy differs from
    the first in [getHazardDisplay] (no colour class), [generateWeekPFI]
    and [generateComparisons]; its [calculatePFI], [detectHazards],
    [determinePrecipitationType], [getPrecipitationDisplay] and
    [generateComparisonData] are the ones above. *)
Module Legacy.

Definition getHazardDisplay (hazardType : option Hazard) : HazardDisplay :=
  match hazardType with
  | None => noHazardDisplay
  | Some FireRisk => mkHazardDisplay "mode_heat" "Fire Risk" true None
  | Some ExtremeHeat => mkHazardDisplay "heat" "Extreme Heat" true None
  | Some HeavyRain => mkHazardDisplay "flood" "Heavy Rain" true None
  | Some SnowIce => mkHazardDisplay "severe_cold" "Snow/Ice" true None
  | Some ExtremeCold => mkHazardDisplay "severe_cold" "Extreme Cold" true None
  | Some StrongWinds => mkHazardDisplay "air" "Strong Winds" true None
  end.

(** Day names from the wall clock, [i] over 1..6; PFI values from
    [pfiData[i]], [i] over 0..5. *)
Definition generateWeekPFI (now : Date) (pfiData : list PfiDay) : WeekPFI :=
  let dayNames := map (fun i => weekdayShort (addDays now i)) (seq 1 6) in
  let pfiValues :=
    map (fun i =>
           match nth_error pfiData i with
           | Some d => Some (pfi d)
           | None => None
           end)
        (seq 0 6) in
  mkWeekPFI dayNames pfiValues.

(** Both forward loops run [i] from 1 to the end of their array, so
    [pfiData[i]] and [hazards[i]] always exist there. *)
Definition generateComparisons (now : Date) (pfiData : list PfiDay)
    (currentTemp : number) (weatherData : WeatherData)
  : result (ComparisonResult ComparisonData) :=
  if (List.length pfiData <? 7)%nat then Throw notEnoughData
  else
    match nth_error pfiData 0, nth_error pfiData 1 with
    | Some yesterday, Some today =>
        let todayVsYesterdayDiff := pfi today - pfi yesterday in
        let todayComparison := generateComparisonData todayVsYesterdayDiff "Today" in
        let weekPFI := generateWeekPFI now (slice1 pfiData) in
        let todayPrecipitation := precipDisplayOf (Some today) in
        let weekPrecipitation :=
          map (fun i => precipDisplayOf (nth_error pfiData i))
              (seq 1 (List.length pfiData - 1)) in
        let hazards := detectHazards weatherData in
        let todayHazard := getHazardDisplay (hazardAt hazards 1) in
        let weekHazards :=
          map (fun i => getHazardDisplay (hazardAt hazards i))
              (seq 1 (List.length hazards - 1)) in
        Ok (mkComparisonResult (pfi today) todayComparison weekPFI
              todayPrecipitation weekPrecipitation todayHazard weekHazards)
    | _, _ => Throw TypeError
    end.

Definition liveComparisons (now : Date) (weatherData : WeatherData)
  : result (ComparisonResult ComparisonData) :=
  let pfiData := calculatePFI weatherData in
  generateComparisons now pfiData (current_temperature_2m weatherData) weatherData.

End Legacy.

(** ** One run of the app *)

(** [style.display] of [#error] and of [#retry]. *)
Inductive BoxStyle : Type :=
| box_block
| box_none
| box_unset.   (* whatever the page had before the script ran *)

(** The text of [#error]: what the page had, or the template
    [`Using sample data. API error: ${err.message}`] for an exception. *)
Inductive ErrorText : Type :=
| PageErrorText (s : string)
| UsingSampleData (err : Error).

(** The globals and elements a run of [initWeatherApp] reads and writes.
    The location globals are left out: the fetch they feed is an input
    of the run.  [retry_display] is [None] on a page without [#retry]. *)
Record App : Type := mkApp {
  isWeatherAppRunning : bool;
  page : Dom;
  error_textContent : ErrorText;
  error_display : BoxStyle;
  retry_display : option BoxStyle
}.

Definition showLoadingProgress (dom : Dom) : Dom :=
  mkDom (pfi_value dom) "Loading...<br>&nbsp;"
    (precipitation_today dom) (hazard_today dom) (day_items dom).

Definition samplePFI : list number :=
  [Fin 25; Fin 20; Fin 28; Fin 23; Fin 26; Fin 21].

(** [dayItems.forEach((dayItem, index) => ...)] of [showFallbackData],
    from position [index] on.  Past the end of [samplePFI] the template
    prints [undefined] before the degree sign. *)
Fixpoint showSamplePFI (index : nat) (dayItems : list DayItem) : list DayItem :=
  match dayItems with
  | [] => []
  | dayItem :: rest =>
      mkDayItem (day_name dayItem)
        (match nth_error samplePFI index with
         | Some v => Degrees v
         | None => PageText "undefined"
         end)
        (precipitation_week dayItem) (hazard_week dayItem)
      :: showSamplePFI (S index) rest
  end.

Definition showFallbackData (dom : Dom) : Dom :=
  mkDom (Degrees (Fin 22)) "<strong>Sample</strong> data<br>for testing"
    (precipitation_today dom) (hazard_today dom)
    (showSamplePFI 0 (day_items dom)).

Definition showRetry (retry : option BoxStyle) (style : BoxStyle) : option BoxStyle :=
  match retry with
  | Some _ => Some style
  | None => None
  end.

Definition showError (message : ErrorText) (app : App) : App :=
  mkApp (isWeatherAppRunning app) (page app) message box_block
    (showRetry (retry_display app) box_block).

(** The [try] block of [initWeatherApp] in mock mode: the page it leaves
    and the exception that ended it, if any. *)
Definition runMock (window : Window) (now : Date) (dom : Dom) : Dom * option Error :=
  let dom := showLoadingProgress dom in
  match generateMockComparisons window now with
  | Throw err => (dom, Some err)
  | Ok mockComparisons => displayResults mockComparisons (showLoadingProgress dom)
  end.

(** The [try] block in live mode.  [fetched] is the outcome of
    [await fetchWeatherData()]. *)
Definition runLive (zone : TimeZone) (now : Date) (fetched : result WeatherData)
    (dom : Dom) : Dom * option Error :=
  let dom := showLoadingProgress (showLoadingProgress dom) in
  match fetched with
  | Throw err => (dom, Some err)
  | Ok weatherData =>
      let dom := showLoadingProgress dom in
      let pfiData := calculatePFI weatherData in
      let dom := showLoadingProgress dom in
      match generateComparisons zone now pfiData
              (current_temperature_2m weatherData) weatherData with
      | Throw err => (dom, Some err)
      | Ok comparisons => displayResults comparisons (showLoadingProgress dom)
      end
  end.

(** [initWeatherApp], one run taken as a whole.  On the pages modelled
    here [showFallbackData] cannot throw, so the inner [catch] is never
    entered. *)
Definition initWeatherApp (window : Window) (zone : TimeZone) (now : Date)
    (fetched : result WeatherData) (app : App) : App :=
  if isWeatherAppRunning app then app
  else
    let '(dom, thrown) :=
      if TESTING_MODE window then runMock window now (page app)
      else runLive zone now fetched (page app) in
    match thrown with
    | None =>
        mkApp false dom (error_textContent app) box_none (retry_display app)
    | Some err =>
        showError (UsingSampleData err)
          (mkApp false (showFallbackData dom) (error_textContent app) box_none
             (retry_display app))
    end.

Definition retryApp (window : Window) (zone : TimeZone) (now : Date)
    (fetched : result WeatherData) (app : App) : App :=
  initWeatherApp window zone now fetched
    (mkApp (isWeatherAppRunning app) (page app) (error_textContent app) box_none
       (showRetry (retry_display app) box_none)).

(** The places of the trends from coldest to hottest. *)
Definition trendRank (t : Trend) : Z :=
  match t with
  | significantly_colder => -3
  | noticeably_colder => -2
  | colder => -1
  | same => 0
  | hotter => 1
  | noticeably_hotter => 2
  | significantly_hotter => 3
  end.

(** The arrow that goes with a trend. *)
Definition arrowOf (t : Trend) : Arrow :=
  match t with
  | significantly_hotter | noticeably_hotter | hotter => arrow_up
  | significantly_colder | noticeably_colder | colder => arrow_down
  | same => arrow_flat
  end.

(** The entry of a mock day, or the defaults of the mock path when the
    configuration has none: 22 for a missing day or an [undefined] [pfi],
    [null] (here [None]) for a [pfi] that is [null]. *)
Definition mockPfiOf (window : Window) (dayKey : string) : option number :=
  match getMockConfig window dayKey with
  | Some mockData => pushedPfi (Mock.pfi mockData)
  | None => Some (Fin 22)
  end.

Definition mockPrecipitationOf (window : Window) (dayKey : string) : PrecipDisplay :=
  match getMockConfig window dayKey with
  | Some mockData =>
      match Mock.precipitation mockData with
      | Some p => getPrecipitationDisplay (determinePrecipitationType (rain p) (snow p))
      | None => noPrecipDisplay
      end
  | None => noPrecipDisplay
  end.

Definition mockHazardOf (window : Window) (dayKey : string) : HazardDisplay :=
  match getMockConfig window dayKey with
  | Some mockData => getHazardDisplay (Mock.hazard mockData)
  | None => noHazardDisplay
  end.

(** ** Sample inputs *)

(** A window of one day: 40 degrees at most, 20 percent humidity, wind of
    30 km/h and no rain. *)
Definition hotDryWindyDay : WeatherData :=
  {| current_temperature_2m := Fin 35;
     daily :=
       {| time := [19000%Z];
          apparent_temperature_min := [Fin 25];
          apparent_temperature_max := [Fin 40];
          cloudcover_mean := [Fin 10];
          precipitation_probability_max := [Fin 0];
          precipitation_sum := [Fin 0];
          windspeed_10m_max := [Fin 30];
          relative_humidity_2m_mean := [Fin 20] |} |}.

(** A window of one day with apparent temperatures 10 and 20 under a
    half-covered sky, and a 40 percent chance of precipitation. *)
Definition mildDay : WeatherData :=
  {| current_temperature_2m := Fin 15;
     daily :=
       {| time := [19000%Z];
          apparent_temperature_min := [Fin 10];
          apparent_temperature_max := [Fin 20];
          cloudcover_mean := [Fin 50];
          precipitation_probability_max := [Fin 40];
          precipitation_sum := [Fin 0];
          windspeed_10m_max := [Fin 12];
          relative_humidity_2m_mean := [Fin 55] |} |}.

(** A window of one freezing day: apparent temperatures -5 and -1 and an
    80 percent chance of precipitation. *)
Definition freezingDay : WeatherData :=
  {| current_temperature_2m := Fin (-3);
     daily :=
       {| time := [19000%Z];
          apparent_temperature_min := [Fin (-5)];
          apparent_temperature_max := [Fin (-1)];
          cloudcover_mean := [Fin 50];
          precipitation_probability_max := [Fin 80];
          precipitation_sum := [Fin 3];
          windspeed_10m_max := [Fin 12];
          relative_humidity_2m_mean := [Fin 55] |} |}.

(** The mock globals as shipped. *)
Definition shippedWindow : Window := mkWindow true Mock.mockConfig.

(** A mock configuration with yesterday at 20 and today at 21.05. *)
Definition mockJustAboveOneDegree : Window :=
  mkWindow true
    [ Mock.mkMockDay "yesterday" (Mock.pfi_number (Fin 20))
        (Some (mkPrecipitation (Fin 15) (Fin 5))) None;
      Mock.mkMockDay "today" (Mock.pfi_number (Fin 21.05))
        (Some (mkPrecipitation (Fin 40) (Fin 20))) (Some HeavyRain) ].

(** A mock configuration with a [pfi] of [null] for today and tomorrow,
    no [pfi] at all for day3, and no entry for yesterday and the later
    days. *)
Definition mockNullAndUndefined : Window :=
  mkWindow true
    [ Mock.mkMockDay "today" Mock.pfi_null None None;
      Mock.mkMockDay "tomorrow" Mock.pfi_null None None;
      Mock.mkMockDay "day3" Mock.pfi_undefined None None ].

(** A mock configuration with today alone, at 24. *)
Definition mockTodayOnly : Window :=
  mkWindow true [Mock.mkMockDay "today" (Mock.pfi_number (Fin 24)) None None].

(** Two windows with a different marker on every day: PFI 15, 16, 17, ...,
    and a chance of precipitation and a wind that differ from day to day.
    The first has seven days, the second the eight days (one past, seven
    of forecast) that the fetch asks for. Day 19000 is Saturday the 8th of
    January 2022. *)
Definition sevenDays : WeatherData :=
  {| current_temperature_2m := Fin 16;
     daily :=
       {| time := [19000; 19001; 19002; 19003; 19004; 19005; 19006]%Z;
          apparent_temperature_min :=
            [Fin 10; Fin 11; Fin 12; Fin 13; Fin 14; Fin 15; Fin 16];
          apparent_temperature_max :=
            [Fin 20; Fin 21; Fin 22; Fin 23; Fin 24; Fin 25; Fin 26];
          cloudcover_mean :=
            [Fin 50; Fin 50; Fin 50; Fin 50; Fin 50; Fin 50; Fin 50];
          precipitation_probability_max :=
            [Fin 0; Fin 40; Fin 70; Fin 10; Fin 35; Fin 90; Fin 65];
          precipitation_sum :=
            [Fin 0; Fin 2; Fin 12; Fin 0; Fin 1; Fin 40; Fin 9];
          windspeed_10m_max :=
            [Fin 10; Fin 20; Fin 30; Fin 55; Fin 15; Fin 25; Fin 60];
          relative_humidity_2m_mean :=
            [Fin 50; Fin 55; Fin 60; Fin 65; Fin 70; Fin 75; Fin 80] |} |}.

Definition eightDays : WeatherData :=
  {| current_temperature_2m := Fin 16;
     daily :=
       {| time := [19000; 19001; 19002; 19003; 19004; 19005; 19006; 19007]%Z;
          apparent_temperature_min :=
            [Fin 10; Fin 11; Fin 12; Fin 13; Fin 14; Fin 15; Fin 16; Fin 17];
          apparent_temperature_max :=
            [Fin 20; Fin 21; Fin 22; Fin 23; Fin 24; Fin 25; Fin 26; Fin 27];
          cloudcover_mean :=
            [Fin 50; Fin 50; Fin 50; Fin 50; Fin 50; Fin 50; Fin 50; Fin 50];
          precipitation_probability_max :=
            [Fin 0; Fin 40; Fin 70; Fin 10; Fin 35; Fin 90; Fin 65; Fin 45];
          precipitation_sum :=
            [Fin 0; Fin 2; Fin 12; Fin 0; Fin 1; Fin 40; Fin 9; Fin 0];
          windspeed_10m_max :=
            [Fin 10; Fin 20; Fin 30; Fin 55; Fin 15; Fin 25; Fin 60; Fin 52];
          relative_humidity_2m_mean :=
            [Fin 50; Fin 55; Fin 60; Fin 65; Fin 70; Fin 75; Fin 80; Fin 85] |} |}.

(** The seven-day window with a cloud cover of [null] for today. *)
Definition sevenDaysNullCloud : WeatherData :=
  {| current_temperature_2m := Fin 16;
     daily :=
       {| time := time (daily sevenDays);
          apparent_temperature_min := apparent_temperature_min (daily sevenDays);
          apparent_temperature_max := apparent_temperature_max (daily sevenDays);
          cloudcover_mean :=
            [Fin 50; Fin 0; Fin 50; Fin 50; Fin 50; Fin 50; Fin 50];
          precipitation_probability_max :=
            precipitation_probability_max (daily sevenDays);
          precipitation_sum := precipitation_sum (daily sevenDays);
          windspeed_10m_max := windspeed_10m_max (daily sevenDays);
          relative_humidity_2m_mean := relative_humidity_2m_mean (daily sevenDays) |} |}.

(** The seven-day window with the cloud cover known for its first day
    only. *)
Definition sevenDaysOneCloudCell : WeatherData :=
  {| current_temperature_2m := Fin 16;
     daily :=
       {| time := time (daily sevenDays);
          apparent_temperature_min := apparent_temperature_min (daily sevenDays);
          apparent_temperature_max := apparent_temperature_max (daily sevenDays);
          cloudcover_mean := [Fin 50];
          precipitation_probability_max :=
            precipitation_probability_max (daily sevenDays);
          precipitation_sum := precipitation_sum (daily sevenDays);
          windspeed_10m_max := windspeed_10m_max (daily sevenDays);
          relative_humidity_2m_mean := relative_humidity_2m_mean (daily sevenDays) |} |}.

(** A result in which today and the second forward day qualify for a
    hazard and for a precipitation display at once. *)
Definition hazardAndRain : ComparisonResult MockComparison :=
  {| todayPFI := Fin 7;
     todayComparison := mkMockComparison significantly_colder;
     weekPFI :=
       mkWeekPFI ["Mon"; "Tue"; "Wed"; "Thu"; "Fri"; "Sat"]
         [Some (Fin 38); Some (Fin 16); Some (Fin 24); Some (Fin 19);
          Some (Fin 0); Some (Fin 43)];
     todayPrecipitation :=
       getPrecipitationDisplay (determinePrecipitationType (Fin 40) (Fin 20));
     weekPrecipitation :=
       [ getPrecipitationDisplay (determinePrecipitationType (Fin 10) (Fin 0));
         getPrecipitationDisplay (determinePrecipitationType (Fin 70) (Fin 15));
         getPrecipitationDisplay (determinePrecipitationType (Fin 25) (Fin 0));
         getPrecipitationDisplay (determinePrecipitationType (Fin 0) (Fin 0));
         getPrecipitationDisplay (determinePrecipitationType (Fin 20) (Fin 40));
         getPrecipitationDisplay (determinePrecipitationType (Fin 30) (Fin 25)) ];
     todayHazard := getHazardDisplay (Some HeavyRain);
     weekHazards :=
       [ getHazardDisplay (Some ExtremeHeat);
         getHazardDisplay (Some HeavyRain);
         getHazardDisplay None;
         getHazardDisplay (Some StrongWinds);
         getHazardDisplay (Some SnowIce);
         getHazardDisplay (Some FireRisk) ] |}.

(** A page on which the script has not written yet. *)
Definition blankItem : DayItem :=
  {| day_name := EmptyString;
     day_pfi := PageText "--";
     precipitation_week := mkPrecipEl display_unset EmptyString EmptyString;
     hazard_week :=
       mkHazardEl display_unset "hazard-icon" EmptyString "hazard-label"
         EmptyString |}.

Definition blankPage : Dom :=
  {| pfi_value := PageText "--";
     comparison_innerHTML := "Loading...";
     precipitation_today := mkPrecipEl display_unset EmptyString EmptyString;
     hazard_today :=
       mkHazardEl display_unset "hazard-icon" EmptyString "hazard-label"
         EmptyString;
     day_items := [blankItem; blankItem; blankItem; blankItem; blankItem; blankItem] |}.

(** The app before its first run, on the blank page with a retry button. *)
Definition freshApp : App :=
  {| isWeatherAppRunning := false;
     page := blankPage;
     error_textContent := PageErrorText EmptyString;
     error_display := box_unset;
     retry_display := Some box_unset |}.

(** Two time zones: UTC, and five hours west of it. *)
Definition utc : TimeZone := fun _ => 0%Z.

Definition fiveHoursWest : TimeZone := fun _ => (-300)%Z.

(** Mock mode switched off: the live path is taken. *)
Definition liveWindow : Window := mkWindow false Mock.mockConfig.

(** ** Proof steps used more than once *)

(** Case analysis on every test of an if-chain. *)
Ltac split_ifs :=
  repeat match goal with
         | |- context [if ?b then _ else _] => destruct b
         end.

(** ** The model on the sample inputs *)

Example saturday : weekdayShort 19000%Z = "Sat".
Proof. reflexivity. Qed.

Example sevenDays_pfi :
  Forall2 eqv (map pfi (calculatePFI sevenDays))
    [Fin 15; Fin 16; Fin 17; Fin 18; Fin 19; Fin 20; Fin 21].
Proof. repeat constructor. Qed.

Example sevenDays_hazards :
  detectHazards sevenDays =
  [None; None; None; Some StrongWinds; None; Some HeavyRain; Some StrongWinds].
Proof. reflexivity. Qed.

Example eightDays_forward_labels :
  exists r, liveComparisons utc 19001%Z eightDays = Ok r /\
            dayNames (weekPFI r) = ["Mon"; "Tue"; "Wed"; "Thu"; "Fri"; "Sat"] /\
            map p_label (weekPrecipitation r) =
              ["Rain expected"; EmptyString; "Likely to rain"; "Rain expected";
               "Rain expected"; "Likely to rain"] /\
            map h_label (weekHazards r) =
              [EmptyString; "Strong Winds"; EmptyString; "Heavy Rain";
               "Strong Winds"; "Strong Winds"].
Proof. eexists. split; [reflexivity |]. repeat split. Qed.

(** Five hours west of UTC every label taken from the data is the weekday
    before the date of its day. *)
Example eightDays_forward_labels_west :
  exists r, liveComparisons fiveHoursWest 19001%Z eightDays = Ok r /\
            dayNames (weekPFI r) = ["Sun"; "Mon"; "Tue"; "Wed"; "Thu"; "Fri"].
Proof. eexists. split; reflexivity. Qed.

(** A cloud cover of [null] counts as a clear sky. *)
Example sevenDaysNullCloud_today :
  exists r, liveComparisons utc 19001%Z sevenDaysNullCloud = Ok r /\
            eqv (todayPFI r) (Fin 17) /\
            comparison (todayComparison r) = hotter.
Proof. eexists. split; [reflexivity |]. split; reflexivity. Qed.

Example shipped_mock_today :
  exists r, generateMockComparisons shippedWindow 19001%Z = Ok r /\
            mock_comparison (todayComparison r) = significantly_colder /\
            todayPFI r = Fin 7 /\
            pfiValues (weekPFI r) =
              [Some (Fin 38); Some (Fin 16); Some (Fin 24); Some (Fin 19);
               Some (Fin 0); Some (Fin 43)].
Proof. eexists. split; [reflexivity |]. repeat split. Qed.

(** A [pfi] of [null] is kept in the week, counts as 0 against the 20 of a
    missing yesterday, and an absent [pfi] gives 22. *)
Example mock_null_and_undefined :
  exists r, generateMockComparisons mockNullAndUndefined 19001%Z = Ok r /\
            mock_comparison (todayComparison r) = significantly_colder /\
            todayPFI r = Fin 0 /\
            pfiValues (weekPFI r) =
              [None; Some (Fin 22); Some (Fin 22); Some (Fin 22);
               Some (Fin 22); Some (Fin 22)].
Proof. eexists. split; [reflexivity |]. repeat split. Qed.

Example mock_mode_off :
  generateMockComparisons (mkWindow false Mock.mockConfig) 19001%Z = Throw TypeError.
Proof. reflexivity. Qed.

(** ** Facts about numbers *)

Module NumFacts.

Lemma gt_le_false (a b : number) : (a >? b) = true -> (a <=? b) = false.
Proof.
  destruct a as [x|], b as [y|]; simpl; try discriminate.
  destruct (x ?= y)%Q; congruence.
Qed.

Lemma le_gt_false (a b : number) : (a <=? b) = true -> (a >? b) = false.
Proof.
  destruct a as [x|], b as [y|]; simpl; try discriminate.
  destruct (x ?= y)%Q; congruence.
Qed.

Lemma gt_irrefl_eqv (a b : number) : eqv a b -> (a >? b) = false.
Proof.
  destruct a as [x|], b as [y|]; simpl; trivial.
  intros H. apply Qeq_alt in H. now rewrite H.
Qed.

Lemma gt_eqv_l (a a' b : number) : eqv a a' -> (a >? b) = (a' >? b).
Proof.
  destruct a as [x|], a' as [x'|], b as [y|]; simpl; try tauto.
  intros H. now rewrite H.
Qed.

Lemma ge_eqv_l (a a' b : number) : eqv a a' -> (a >=? b) = (a' >=? b).
Proof.
  destruct a as [x|], a' as [x'|], b as [y|]; simpl; try tauto.
  intros H. now rewrite H.
Qed.

Lemma le_eqv_l (a a' b : number) : eqv a a' -> (a <=? b) = (a' <=? b).
Proof.
  destruct a as [x|], a' as [x'|], b as [y|]; simpl; try tauto.
  intros H. now rewrite H.
Qed.

Lemma eqv_refl (a : number) : eqv a a.
Proof. destruct a; simpl; [reflexivity | exact I]. Qed.

Lemma eqv_sym (a b : number) : eqv a b -> eqv b a.
Proof. destruct a, b; simpl; trivial. intros H; now symmetry. Qed.

Lemma eqv_trans (a b c : number) : eqv a b -> eqv b c -> eqv a c.
Proof.
  destruct a, b, c; simpl; try tauto. intros H1 H2. now rewrite H1.
Qed.

Lemma or0_zero_or_id (a : number) : is_zero (or0 a) \/ or0 a = a.
Proof.
  destruct a as [x|]; simpl.
  - destruct (Qeq_bool x 0); [left; simpl; reflexivity | now right].
  - left. simpl. reflexivity.
Qed.

(** Comparisons of integers seen as numbers are comparisons in [Z]. *)
Lemma gt_of_Z (a b : Z) : (of_Z a >? of_Z b) = (a >? b)%Z.
Proof.
  unfold of_Z, gt, Qcompare, inject_Z; simpl.
  rewrite !Z.mul_1_r. unfold Z.gtb. reflexivity.
Qed.

Lemma lt_of_Z (a b : Z) : (of_Z a <? of_Z b) = (a <? b)%Z.
Proof.
  unfold of_Z, lt, Qcompare, inject_Z; simpl.
  rewrite !Z.mul_1_r. unfold Z.ltb. reflexivity.
Qed.

Lemma ge_of_Z (a b : Z) : (of_Z a >=? of_Z b) = (a >=? b)%Z.
Proof.
  unfold of_Z, ge, Qcompare, inject_Z; simpl.
  rewrite !Z.mul_1_r. unfold Z.geb. reflexivity.
Qed.

Lemma abs_of_Z (a : Z) : abs (of_Z a) = of_Z (Z.abs a).
Proof. reflexivity. Qed.

(** Five times an integer is already rounded. *)
Lemma percentageOf_integer (z : Z) : percentageOf (inject_Z z) = (5 * z)%Z.
Proof.
  unfold percentageOf, Qfloor, Qplus, Qmult, inject_Z.
  cbn [Qnum Qden Pos.mul].
  symmetry. apply Z.div_unique with (r := 1%Z); lia.
Qed.

End NumFacts.

(** ** Loops that push one entry per index *)

Lemma nth_error_map_seq {A : Type} (f : nat -> A) (n i : nat) :
  nth_error (map f (seq 0 n)) i = if (i <? n)%nat then Some (f i) else None.
Proof.
  rewrite nth_error_map, nth_error_seq.
  destruct (i <? n)%nat; reflexivity.
Qed.

Lemma calculatePFI_length (weatherData : WeatherData) :
  List.length (calculatePFI weatherData) = List.length (time (daily weatherData)).
Proof. unfold calculatePFI. now rewrite length_map, length_seq. Qed.

Lemma detectHazards_length (weatherData : WeatherData) :
  List.length (detectHazards weatherData) = List.length (time (daily weatherData)).
Proof. unfold detectHazards. now rewrite length_map, length_seq. Qed.

Lemma calculatePFI_nth (weatherData : WeatherData) (i : nat) :
  (i < List.length (time (daily weatherData)))%nat ->
  nth_error (calculatePFI weatherData) i =
  Some (calculatePFIDay (daily weatherData) i).
Proof.
  intros Hi. unfold calculatePFI. rewrite nth_error_map_seq.
  apply Nat.ltb_lt in Hi. now rewrite Hi.
Qed.

Lemma calculatePFI_nth_beyond (weatherData : WeatherData) (i : nat) :
  (List.length (time (daily weatherData)) <= i)%nat ->
  nth_error (calculatePFI weatherData) i = None.
Proof.
  intros Hi. apply nth_error_None. now rewrite calculatePFI_length.
Qed.

Lemma detectHazards_nth (weatherData : WeatherData) (i : nat) :
  (i < List.length (time (daily weatherData)))%nat ->
  nth_error (detectHazards weatherData) i =
  Some (detectHazard (daily weatherData) i).
Proof.
  intros Hi. unfold detectHazards. rewrite nth_error_map_seq.
  apply Nat.ltb_lt in Hi. now rewrite Hi.
Qed.

Lemma detectHazards_nth_beyond (weatherData : WeatherData) (i : nat) :
  (List.length (time (daily weatherData)) <= i)%nat ->
  nth_error (detectHazards weatherData) i = None.
Proof.
  intros Hi. apply nth_error_None. now rewrite detectHazards_length.
Qed.

(** ** The hazard detector *)

(** The if-chain of the loop body is the first match of the rule list. *)
Lemma detectHazard_firstMatch (daily : Daily) (i : nat) :
  detectHazard daily i = firstMatch hazardRules (hazardInputs daily i).
Proof.
  unfold detectHazard, firstMatch, hazardRules, hazardInputs.
  cbn [find snd fst tempMax tempMin humidity wind precipSum precipProb].
  split_ifs; reflexivity.
Qed.

(** C4. For every day of a window, [detectHazards] yields the first hazard
    of the priority list Fire Risk, Extreme Heat, Heavy Rain, Snow/Ice,
    Extreme Cold, Strong Winds whose condition the day meets, or none (so
    at most one per day); a day with a maximum of 40 degrees, humidity 20,
    wind 30 and no precipitation is a Fire Risk day, not an Extreme Heat
    day. *)
Theorem detectHazards_priority_order (weatherData : WeatherData) (i : nat) :
  (i < List.length (time (daily weatherData)))%nat ->
  nth_error (detectHazards weatherData) i =
    Some (firstMatch hazardRules (hazardInputs (daily weatherData) i)) /\
  (eqv (cell (apparent_temperature_max (daily weatherData)) i) (Fin 40) ->
   eqv (cell (relative_humidity_2m_mean (daily weatherData)) i) (Fin 20) ->
   eqv (cell (windspeed_10m_max (daily weatherData)) i) (Fin 30) ->
   eqv (cell (precipitation_sum (daily weatherData)) i) (Fin 0) ->
   nth_error (detectHazards weatherData) i = Some (Some FireRisk)).
Proof.
  intros Hi. rewrite (detectHazards_nth _ _ Hi). split.
  - now rewrite detectHazard_firstMatch.
  - intros Ht Hh Hw _. unfold detectHazard.
    rewrite (NumFacts.ge_eqv_l _ _ (Fin 32) Ht).
    rewrite (NumFacts.le_eqv_l _ _ (Fin 30) Hh).
    rewrite (NumFacts.ge_eqv_l _ _ (Fin 25) Hw).
    reflexivity.
Qed.

Lemma detectHazards_priority_order_witness :
  nth_error (detectHazards hotDryWindyDay) 0 =
    Some (firstMatch hazardRules (hazardInputs (daily hotDryWindyDay) 0)) /\
  nth_error (detectHazards hotDryWindyDay) 0 = Some (Some FireRisk).
Proof.
  assert (H0 : (0 < List.length (time (daily hotDryWindyDay)))%nat) by (simpl; lia).
  split.
  - exact (proj1 (detectHazards_priority_order hotDryWindyDay 0 H0)).
  - apply (proj2 (detectHazards_priority_order hotDryWindyDay 0 H0));
      vm_compute; reflexivity.
Defined.

(** ** The precipitation resolver *)

(** C5, as the code has it. When rain or snow is above 30, rain is chosen
    exactly when its probability is strictly higher than that of snow; in
    every other case, a tie included, snow is chosen. *)
Theorem determinePrecipitationType_higher_wins (rainProb snowProb : number) :
  ((rainProb >? Fin 30) || (snowProb >? Fin 30)) = true ->
  ((rainProb >? snowProb) = true ->
   determinePrecipitationType rainProb snowProb =
     Some (mkPrecipitationData type_rain rainProb)) /\
  ((rainProb >? snowProb) = false ->
   determinePrecipitationType rainProb snowProb =
     Some (mkPrecipitationData type_snow snowProb)) /\
  (eqv rainProb snowProb ->
   determinePrecipitationType rainProb snowProb =
     Some (mkPrecipitationData type_snow snowProb)).
Proof.
  intros Habove. unfold determinePrecipitationType.
  assert (Hguard : ((rainProb <=? Fin 30) && (snowProb <=? Fin 30)) = false).
  { apply orb_true_iff in Habove. apply andb_false_iff.
    destruct Habove as [H | H]; [left | right]; now apply NumFacts.gt_le_false. }
  rewrite Hguard. repeat split.
  - intros H. now rewrite H.
  - intros H. now rewrite H.
  - intros H. now rewrite (NumFacts.gt_irrefl_eqv _ _ H).
Qed.

Lemma determinePrecipitationType_higher_wins_witness :
  determinePrecipitationType (Fin 50) (Fin 50) =
    Some (mkPrecipitationData type_snow (Fin 50)) /\
  determinePrecipitationType (Fin 70) (Fin 15) =
    Some (mkPrecipitationData type_rain (Fin 70)).
Proof.
  split.
  - apply (determinePrecipitationType_higher_wins (Fin 50) (Fin 50)).
    + reflexivity.
    + simpl. reflexivity.
  - apply (determinePrecipitationType_higher_wins (Fin 70) (Fin 15)).
    + reflexivity.
    + reflexivity.
Defined.

(** C5 as written fails: with rain and snow both at 50 the result is snow,
    labelled "Likely to snow", and not rain. *)
Lemma determinePrecipitationType_tie_not_rain :
  option_map type (determinePrecipitationType (Fin 50) (Fin 50)) = Some type_snow /\
  option_map type (determinePrecipitationType (Fin 50) (Fin 50)) <> Some type_rain /\
  p_label (getPrecipitationDisplay (determinePrecipitationType (Fin 50) (Fin 50)))
    = "Likely to snow" /\
  p_label (getPrecipitationDisplay (determinePrecipitationType (Fin 50) (Fin 50)))
    <> "Likely to rain".
Proof.
  repeat split; try reflexivity; vm_compute; discriminate.
Qed.

(** ** The PFI calculator *)

(** C6. For every day of a window whose minimum and maximum apparent
    temperature and cloud cover are numbers, the PFI stored by
    [calculatePFI] for that day is (min + max) / 2 + 0.02 * (50 - cloud);
    with min 10, max 20 and cloud 50 it is 15. *)
Theorem calculatePFI_formula (weatherData : WeatherData) (i : nat)
    (tmin tmax cloud : Q) :
  (i < List.length (time (daily weatherData)))%nat ->
  cell (apparent_temperature_min (daily weatherData)) i = Fin tmin ->
  cell (apparent_temperature_max (daily weatherData)) i = Fin tmax ->
  cell (cloudcover_mean (daily weatherData)) i = Fin cloud ->
  exists day : PfiDay,
    nth_error (calculatePFI weatherData) i = Some day /\
    pfi day = Fin ((tmin + tmax) / 2 + 0.02 * (50 - cloud)) /\
    (tmin == 10 -> tmax == 20 -> cloud == 50 -> eqv (pfi day) (Fin 15))%Q.
Proof.
  intros Hi Hmin Hmax Hcloud.
  exists (calculatePFIDay (daily weatherData) i).
  split; [now apply calculatePFI_nth |].
  assert (Hpfi : pfi (calculatePFIDay (daily weatherData) i)
                 = Fin ((tmin + tmax) / 2 + 0.02 * (50 - cloud))).
  { unfold calculatePFIDay. cbn [pfi]. rewrite Hmin, Hmax, Hcloud. reflexivity. }
  split; [exact Hpfi |].
  intros H1 H2 H3. rewrite Hpfi. cbn [eqv].
  rewrite H1, H2, H3. vm_compute. reflexivity.
Qed.

Lemma calculatePFI_formula_witness :
  exists day : PfiDay,
    nth_error (calculatePFI mildDay) 0 = Some day /\
    pfi day = Fin ((10 + 20) / 2 + 0.02 * (50 - 50)) /\
    eqv (pfi day) (Fin 15).
Proof.
  destruct (calculatePFI_formula mildDay 0 10 20 50) as (day & Hnth & Hpfi & H15).
  - simpl. lia.
  - reflexivity.
  - reflexivity.
  - reflexivity.
  - exists day. repeat split; trivial. apply H15; reflexivity.
Defined.

(** C10. For every day of a window, the precipitation pair stored by
    [calculatePFI] is decided by the day's own cells: with avg the half of
    the sum of its minimum and maximum apparent temperature, which is also
    the average stored for the day, the pair has the day's probability (0
    when the cell is missing) on the rain side and 0 on the snow side when
    avg is above zero, and the other way round when avg is zero or below;
    when a temperature is missing both sides are 0.  So one of the two
    sides is always 0, the two are never both above 30, and they are equal
    only when both are zero. *)
Theorem calculatePFI_precipitation_one_sided (weatherData : WeatherData) (i : nat) :
  (i < List.length (time (daily weatherData)))%nat ->
  exists (day : PfiDay) (p : Precipitation),
    nth_error (calculatePFI weatherData) i = Some day /\
    precipitation day = Some p /\
    let tmin := cell (apparent_temperature_min (daily weatherData)) i in
    let tmax := cell (apparent_temperature_max (daily weatherData)) i in
    let avg := (tmin + tmax) / Fin 2 in
    let max := cell (precipitation_probability_max (daily weatherData)) i in
    let prob := or0 max in
    avgApparentTemp day = avg /\
    (forall x : Q, max = Fin x -> eqv prob (Fin x)) /\
    (max = NaN -> prob = Fin 0) /\
    (forall a b : Q, tmin = Fin a -> tmax = Fin b ->
       (0 < (a + b) / 2 -> rain p = prob /\ snow p = Fin 0) /\
       ((a + b) / 2 <= 0 -> snow p = prob /\ rain p = Fin 0))%Q /\
    (tmin = NaN \/ tmax = NaN -> rain p = Fin 0 /\ snow p = Fin 0) /\
    ((avgApparentTemp day >? Fin 0) = true -> rain p = prob /\ snow p = Fin 0) /\
    ((avgApparentTemp day <=? Fin 0) = true -> snow p = prob /\ rain p = Fin 0) /\
    (rain p = Fin 0 \/ snow p = Fin 0) /\
    ~ ((rain p >? Fin 30) = true /\ (snow p >? Fin 30) = true) /\
    (eqv (rain p) (snow p) -> is_zero (rain p) /\ is_zero (snow p)).
Proof.
  intros Hi.
  exists (calculatePFIDay (daily weatherData) i).
  unfold calculatePFIDay. cbn [precipitation avgApparentTemp].
  eexists. split; [now apply calculatePFI_nth |]. split; [reflexivity |].
  cbn zeta. cbn [rain snow].
  set (tmin := cell (apparent_temperature_min (daily weatherData)) i).
  set (tmax := cell (apparent_temperature_max (daily weatherData)) i).
  set (avg := (tmin + tmax) / Fin 2).
  set (max := cell (precipitation_probability_max (daily weatherData)) i).
  assert (Hside : (if avg >? Fin 0 then or0 max else Fin 0) = Fin 0 \/
                  (if avg <=? Fin 0 then or0 max else Fin 0) = Fin 0).
  { destruct (avg >? Fin 0) eqn:Hgt.
    - right. now rewrite (NumFacts.gt_le_false _ _ Hgt).
    - now left. }
  assert (Hrain : (avg >? Fin 0) = true ->
                  (if avg >? Fin 0 then or0 max else Fin 0) = or0 max /\
                  (if avg <=? Fin 0 then or0 max else Fin 0) = Fin 0).
  { intros H. now rewrite H, (NumFacts.gt_le_false _ _ H). }
  assert (Hsnow : (avg <=? Fin 0) = true ->
                  (if avg <=? Fin 0 then or0 max else Fin 0) = or0 max /\
                  (if avg >? Fin 0 then or0 max else Fin 0) = Fin 0).
  { intros H. now rewrite H, (NumFacts.le_gt_false _ _ H). }
  split; [reflexivity |].
  split.
  { intros x Hx. rewrite Hx. simpl.
    destruct (Qeq_bool x 0) eqn:Hz; simpl; [| reflexivity].
    apply Qeq_bool_iff in Hz. now symmetry. }
  split; [intros Hnan; now rewrite Hnan |].
  split.
  { intros a b Ha Hb.
    assert (Havg : avg = Fin ((a + b) / 2)) by (unfold avg; rewrite Ha, Hb; reflexivity).
    split; intros Hsign.
    - apply Hrain. rewrite Havg. cbn [gt].
      apply Qgt_alt in Hsign. now rewrite Hsign.
    - apply Hsnow. rewrite Havg. cbn [le].
      destruct ((a + b) / 2 ?= 0)%Q eqn:Hcmp; try reflexivity.
      apply Qgt_alt in Hcmp. lra. }
  split.
  { intros Hmissing.
    assert (Havg : avg = NaN).
    { unfold avg. destruct Hmissing as [-> | ->]; [reflexivity |].
      now destruct tmin. }
    rewrite Havg. split; reflexivity. }
  split; [exact Hrain |]. split; [exact Hsnow |].
  split; [exact Hside |].
  split.
  { intros [Hr Hs]. destruct Hside as [H0 | H0]; rewrite H0 in *; discriminate. }
  intros Heq. destruct Hside as [H0 | H0]; rewrite H0 in *.
  - split; [reflexivity |]. apply NumFacts.eqv_sym. exact Heq.
  - split; [exact Heq | reflexivity].
Qed.

Lemma calculatePFI_precipitation_one_sided_witness :
  (exists (day : PfiDay) (p : Precipitation),
     nth_error (calculatePFI mildDay) 0 = Some day /\
     precipitation day = Some p /\
     avgApparentTemp day = (Fin 10 + Fin 20) / Fin 2 /\
     rain p = Fin 40 /\ snow p = Fin 0) /\
  (exists (day : PfiDay) (p : Precipitation),
     nth_error (calculatePFI freezingDay) 0 = Some day /\
     precipitation day = Some p /\
     snow p = Fin 80 /\ rain p = Fin 0).
Proof.
  split.
  - destruct (calculatePFI_precipitation_one_sided mildDay 0)
      as (day & p & Hnth & Hp & Havg & _ & _ & Hsign & _).
    + simpl. lia.
    + exists day, p. split; [exact Hnth |]. split; [exact Hp |].
      split; [exact Havg |].
      apply (Hsign 10 20); reflexivity.
  - destruct (calculatePFI_precipitation_one_sided freezingDay 0)
      as (day & p & Hnth & Hp & _ & _ & _ & Hsign & _).
    + simpl. lia.
    + exists day, p. split; [exact Hnth |]. split; [exact Hp |].
      apply (Hsign (-5) (-1)); [reflexivity | reflexivity |].
      vm_compute. discriminate.
Defined.

(** ** The trend of today against yesterday *)

(** [generateComparisonData] in terms of the integral percentage. *)
Lemma generateComparisonData_percentage (diff : Q) (dayName : string) :
  generateComparisonData (Fin diff) dayName =
  let p := percentageOf diff in
  let a :=
    if (p >? 35)%Z then arrow_up
    else if (p >? 15)%Z then arrow_up
    else if (p >? 5)%Z then arrow_up
    else if (p <? -35)%Z then arrow_down
    else if (p <? -15)%Z then arrow_down
    else if (p <? -5)%Z then arrow_down
    else arrow_flat in
  let text :=
    if (Z.abs p >=? 5)%Z then ArrowPercent a (of_Z (Z.abs p)) else ArrowOnly a in
  mkComparisonData a (of_Z (Z.abs p)) (trendOfPercentage p) text text.
Proof.
  unfold generateComparisonData, trendOfPercentage.
  change (round (Fin diff * Fin 5)) with (of_Z (percentageOf diff)).
  set (p := percentageOf diff). cbn zeta.
  rewrite NumFacts.abs_of_Z.
  change (Fin 35) with (of_Z 35). change (Fin 15) with (of_Z 15).
  change (Fin 5) with (of_Z 5). change (Fin (-35)) with (of_Z (-35)).
  change (Fin (-15)) with (of_Z (-15)). change (Fin (-5)) with (of_Z (-5)).
  rewrite !NumFacts.gt_of_Z, !NumFacts.lt_of_Z, !NumFacts.ge_of_Z.
  split_ifs; reflexivity.
Qed.

(** C7. For every numeric difference, [generateComparisonData] works on
    the percentage round(diff * 5): it returns its absolute value,
    classifies it with the strict thresholds 35, 15, 5 and -35, -15, -5,
    and puts the percentage in the display texts exactly when its absolute
    value is at least 5; a difference of 1 gives 5 and the trend "same". *)
Theorem generateComparisonData_thresholds (diff : Q) (dayName : string) :
  let r := generateComparisonData (Fin diff) dayName in
  let p := percentageOf diff in
  percentage r = of_Z (Z.abs p) /\
  comparison r = trendOfPercentage p /\
  ((5 <= Z.abs p)%Z ->
   fullDisplay r = ArrowPercent (arrow r) (of_Z (Z.abs p)) /\
   htmlDisplay r = ArrowPercent (arrow r) (of_Z (Z.abs p))) /\
  ((Z.abs p < 5)%Z ->
   fullDisplay r = ArrowOnly (arrow r) /\ htmlDisplay r = ArrowOnly (arrow r)) /\
  ((diff == 1)%Q ->
   p = 5%Z /\ comparison r = same /\
   fullDisplay r = ArrowPercent arrow_flat (Fin 5)).
Proof.
  cbn zeta. rewrite generateComparisonData_percentage. cbn zeta.
  cbn [percentage comparison fullDisplay htmlDisplay arrow].
  split; [reflexivity |]. split; [reflexivity |]. split; [| split].
  - intros H. destruct (Z.geb_spec (Z.abs (percentageOf diff)) 5); [now split | lia].
  - intros H. destruct (Z.geb_spec (Z.abs (percentageOf diff)) 5); [lia | now split].
  - intros H.
    assert (Hp : percentageOf diff = 5%Z).
    { unfold percentageOf. rewrite H. reflexivity. }
    rewrite Hp. repeat split.
Qed.

Lemma generateComparisonData_thresholds_witness :
  let r := generateComparisonData (Fin 1) "Today" in
  percentageOf 1 = 5%Z /\ comparison r = same /\
  fullDisplay r = ArrowPercent arrow_flat (Fin 5) /\
  htmlDisplay r = ArrowPercent (arrow r) (of_Z (Z.abs (percentageOf 1))).
Proof.
  cbn zeta.
  destruct (generateComparisonData_thresholds 1 "Today")
    as (_ & _ & Hshow & _ & Hone).
  destruct Hone as (Hp & Hsame & Hfull); [reflexivity |].
  destruct Hshow as (_ & Hhtml); [rewrite Hp; simpl; lia |].
  repeat split; assumption.
Defined.

(** ** Mock mode against the live path *)

(** On a whole number of degrees the two threshold chains agree. *)
Lemma mockTrend_agrees_on_integers (z : Z) (dayName : string) :
  mockTrend (of_Z z) = comparison (generateComparisonData (of_Z z) dayName).
Proof.
  unfold of_Z at 2. rewrite generateComparisonData_percentage. cbn zeta.
  cbn [comparison]. rewrite NumFacts.percentageOf_integer.
  unfold mockTrend, trendOfPercentage.
  change (Fin 7) with (of_Z 7). change (Fin 3) with (of_Z 3).
  change (Fin 1) with (of_Z 1). change (Fin (-7)) with (of_Z (-7)).
  change (Fin (-3)) with (of_Z (-3)). change (Fin (-1)) with (of_Z (-1)).
  rewrite !NumFacts.gt_of_Z, !NumFacts.lt_of_Z.
  repeat match goal with
         | |- context [(?a >? ?b)%Z] => destruct (Z.gtb_spec a b)
         | |- context [(?a <? ?b)%Z] => destruct (Z.ltb_spec a b)
         end; try reflexivity; lia.
Qed.

(** C9 fails on the code: with yesterday at 20 and today at 21.05 the mock
    path reports "hotter" (1.05 is above 1) while the live path, which
    rounds 5.25 to 5 first, reports "same" for the same difference. *)
Theorem mock_trend_differs_from_live :
  (exists r : ComparisonResult MockComparison,
     generateMockComparisons mockJustAboveOneDegree 19000%Z = Ok r /\
     mock_comparison (todayComparison r) = hotter) /\
  comparison (generateComparisonData (Fin 21.05 - Fin 20) "Today") = same /\
  mockTrend (Fin 21.05 - Fin 20) <>
    comparison (generateComparisonData (Fin 21.05 - Fin 20) "Today").
Proof.
  split; [| split].
  - eexists. split; [reflexivity |]. vm_compute. reflexivity.
  - vm_compute. reflexivity.
  - vm_compute. discriminate.
Qed.

(** ** The aggregator *)

(** What [generateComparisons] returns once the length guard is passed. *)
Lemma generateComparisons_enough (zone : TimeZone) (now : Date) (pfiData : list PfiDay)
    (currentTemp : number) (weatherData : WeatherData) :
  (7 <= List.length pfiData)%nat ->
  exists yesterday today : PfiDay,
    nth_error pfiData 0 = Some yesterday /\
    nth_error pfiData 1 = Some today /\
    generateComparisons zone now pfiData currentTemp weatherData =
    Ok (mkComparisonResult (pfi today)
          (generateComparisonData (pfi today - pfi yesterday) "Today")
          (generateWeekPFI zone now (slice1 pfiData))
          (precipDisplayOf (Some today))
          (map (fun i => precipDisplayOf (nth_error (slice1 pfiData) i)) (seq 1 6))
          (getHazardDisplay (hazardAt (detectHazards weatherData) 1))
          (map (fun i => getHazardDisplay
                           (hazardAt (slice1 (detectHazards weatherData)) i))
               (seq 1 6))).
Proof.
  intros Hlen. unfold generateComparisons.
  destruct (Nat.ltb_spec (List.length pfiData) 7) as [Hlt | _]; [lia |].
  destruct pfiData as [| yesterday [| today rest]]; simpl in Hlen; try lia.
  exists yesterday, today. repeat split.
Qed.

Lemma generateComparisons_short (zone : TimeZone) (now : Date) (pfiData : list PfiDay)
    (currentTemp : number) (weatherData : WeatherData) :
  (List.length pfiData < 7)%nat ->
  generateComparisons zone now pfiData currentTemp weatherData = Throw notEnoughData.
Proof.
  intros Hlen. unfold generateComparisons.
  destruct (Nat.ltb_spec (List.length pfiData) 7) as [_ | Hge]; [reflexivity | lia].
Qed.

(** C2, as the code has it. [generateComparisons] raises the
    insufficient-data error exactly for the windows of fewer than 7
    entries; every window of 7 entries or more, the 8-entry window
    included, yields a result. *)
Theorem generateComparisons_insufficient_data (zone : TimeZone) (now : Date)
    (pfiData : list PfiDay) (currentTemp : number) (weatherData : WeatherData) :
  (generateComparisons zone now pfiData currentTemp weatherData = Throw notEnoughData
   <-> (List.length pfiData < 7)%nat) /\
  ((7 <= List.length pfiData)%nat ->
   exists r, generateComparisons zone now pfiData currentTemp weatherData = Ok r).
Proof.
  split; [split |].
  - intros Hthrow.
    destruct (Nat.lt_ge_cases (List.length pfiData) 7) as [Hlt | Hge]; [exact Hlt |].
    destruct (generateComparisons_enough zone now pfiData currentTemp weatherData Hge)
      as (y & t & _ & _ & Hok).
    rewrite Hok in Hthrow. discriminate.
  - apply generateComparisons_short.
  - intros Hge.
    destruct (generateComparisons_enough zone now pfiData currentTemp weatherData Hge)
      as (y & t & _ & _ & Hok).
    eexists. exact Hok.
Qed.

Lemma generateComparisons_insufficient_data_witness :
  generateComparisons utc 19001%Z (firstn 6 (calculatePFI sevenDays)) (Fin 16) sevenDays
    = Throw notEnoughData /\
  (exists r, generateComparisons utc 19001%Z (calculatePFI sevenDays) (Fin 16) sevenDays
             = Ok r) /\
  (exists r, generateComparisons utc 19001%Z (calculatePFI eightDays) (Fin 16) eightDays
             = Ok r).
Proof.
  split; [| split].
  - apply (generateComparisons_insufficient_data utc 19001%Z
             (firstn 6 (calculatePFI sevenDays)) (Fin 16) sevenDays).
    simpl. lia.
  - apply (generateComparisons_insufficient_data utc 19001%Z
             (calculatePFI sevenDays) (Fin 16) sevenDays).
    simpl. lia.
  - apply (generateComparisons_insufficient_data utc 19001%Z
             (calculatePFI eightDays) (Fin 16) eightDays).
    simpl. lia.
Defined.

(** C2 as written fails: an 8-entry window is not refused. *)
Lemma generateComparisons_accepts_eight_days :
  List.length (calculatePFI eightDays) = 8%nat /\
  List.length (calculatePFI eightDays) <> 7%nat /\
  generateComparisons utc 19001%Z (calculatePFI eightDays) (Fin 16) eightDays
    <> Throw notEnoughData /\
  exists r, generateComparisons utc 19001%Z (calculatePFI eightDays) (Fin 16) eightDays
            = Ok r.
Proof.
  assert (Hge : (7 <= List.length (calculatePFI eightDays))%nat) by (simpl; lia).
  destruct (generateComparisons_enough utc 19001%Z _ (Fin 16) eightDays Hge)
    as (y & t & _ & _ & Hok).
  repeat split.
  - simpl. lia.
  - rewrite Hok. discriminate.
  - eexists. exact Hok.
Qed.

(** *** Which day of the window each forward slot reads *)

Lemma nth_error_slice1 {A : Type} (a : list A) (i : nat) :
  nth_error (slice1 a) (1 + i) = nth_error a (i + 2).
Proof.
  unfold slice1. rewrite nth_error_skipn. f_equal. lia.
Qed.

Lemma hazardAt_slice1 (hazards : list (option Hazard)) (i : nat) :
  hazardAt (slice1 hazards) (1 + i) = hazardAt hazards (i + 2).
Proof. unfold hazardAt. now rewrite nth_error_slice1. Qed.

Lemma nth_error_map_seq1 {A : Type} (f : nat -> A) (i : nat) :
  (i < 6)%nat -> nth_error (map f (seq 1 6)) i = Some (f (1 + i)%nat).
Proof.
  intros Hi. rewrite nth_error_map, nth_error_seq.
  apply Nat.ltb_lt in Hi. now rewrite Hi.
Qed.

Lemma week_slot_pfi (zone : TimeZone) (now : Date) (pfiData : list PfiDay) (i : nat) :
  (i < 6)%nat ->
  nth_error (pfiValues (generateWeekPFI zone now (slice1 pfiData))) i =
  Some (option_map pfi (nth_error pfiData (i + 2))).
Proof.
  intros Hi. unfold generateWeekPFI. cbn [pfiValues].
  rewrite (nth_error_map_seq1 _ i Hi), nth_error_slice1.
  now destruct (nth_error pfiData (i + 2)).
Qed.

Lemma week_slot_label (zone : TimeZone) (now : Date) (pfiData : list PfiDay) (i : nat) :
  (i < 6)%nat ->
  nth_error (dayNames (generateWeekPFI zone now (slice1 pfiData))) i =
  Some (match nth_error pfiData (i + 2) with
        | Some d =>
            match date d with
            | Some apiDate => weekdayShort (localDate zone apiDate)
            | None => weekdayShort (addDays now (1 + i))
            end
        | None => weekdayShort (addDays now (1 + i))
        end).
Proof.
  intros Hi. unfold generateWeekPFI. cbn [dayNames].
  now rewrite (nth_error_map_seq1 _ i Hi), nth_error_slice1.
Qed.

(** The live path on a window of at least seven days. *)
Lemma liveComparisons_enough (zone : TimeZone) (now : Date) (weatherData : WeatherData) :
  (7 <= List.length (time (daily weatherData)))%nat ->
  exists r : ComparisonResult ComparisonData,
    liveComparisons zone now weatherData = Ok r /\
    weekPFI r = generateWeekPFI zone now (slice1 (calculatePFI weatherData)) /\
    weekPrecipitation r =
      map (fun i => precipDisplayOf (nth_error (slice1 (calculatePFI weatherData)) i))
          (seq 1 6) /\
    weekHazards r =
      map (fun i => getHazardDisplay (hazardAt (slice1 (detectHazards weatherData)) i))
          (seq 1 6).
Proof.
  intros Hlen. unfold liveComparisons. cbn zeta.
  rewrite <- calculatePFI_length in Hlen.
  destruct (generateComparisons_enough zone now _ (current_temperature_2m weatherData)
              weatherData Hlen) as (y & t & _ & _ & Hok).
  eexists. split; [exact Hok |]. repeat split.
Qed.

(** All three forward arrays read day [i + 2] of the window in slot [i],
    whatever the length of the window. *)
Lemma liveComparisons_aligned (zone : TimeZone) (now : Date) (weatherData : WeatherData) :
  (7 <= List.length (time (daily weatherData)))%nat ->
  exists r : ComparisonResult ComparisonData,
    liveComparisons zone now weatherData = Ok r /\
    forall i : nat, (i < 6)%nat -> alignedAt weatherData r i (i + 2).
Proof.
  intros Hlen.
  destruct (liveComparisons_enough zone now weatherData Hlen)
    as (r & Hok & Hpfi & Hprecip & Hhazard).
  exists r. split; [exact Hok |].
  intros i Hi. unfold alignedAt. rewrite Hpfi, Hprecip, Hhazard. repeat split.
  - apply week_slot_pfi. exact Hi.
  - rewrite (nth_error_map_seq1 _ i Hi), nth_error_slice1. reflexivity.
  - rewrite (nth_error_map_seq1 _ i Hi), hazardAt_slice1. reflexivity.
Qed.

(** In a 7-day window index 7 is past the end: the last forward slot
    holds the three "no data" values. *)
Lemma liveComparisons_seven_last_slot (zone : TimeZone) (now : Date) (weatherData : WeatherData) :
  List.length (time (daily weatherData)) = 7%nat ->
  exists r : ComparisonResult ComparisonData,
    liveComparisons zone now weatherData = Ok r /\
    (forall i : nat, (i < 6)%nat -> alignedAt weatherData r i (i + 2)) /\
    nth_error (pfiValues (weekPFI r)) 5 = Some None /\
    nth_error (weekPrecipitation r) 5 = Some noPrecipDisplay /\
    nth_error (weekHazards r) 5 = Some noHazardDisplay.
Proof.
  intros Hlen.
  destruct (liveComparisons_aligned zone now weatherData) as (r & Hok & Haligned);
    [lia |].
  exists r. split; [exact Hok |]. split; [exact Haligned |].
  destruct (Haligned 5%nat) as (Hpfi & Hprecip & Hhazard); [lia |].
  rewrite Hpfi, Hprecip, Hhazard.
  unfold derivedPfi, derivedPrecipitation, derivedHazard, hazardAt.
  rewrite calculatePFI_nth_beyond, detectHazards_nth_beyond by (simpl; lia).
  repeat split.
Qed.

(** C1, as the code has it. For every 7-day window and every forward slot
    i in 0..5, the PFI, the precipitation display and the hazard display of
    the slot are all read at index i + 2 of the window. For the slots 0..4
    that is a day of the window; for slot 5 it is index 7, past the end of
    a 7-day window, and the slot holds the three "no data" values
    ([null], no precipitation, no hazard). *)
Theorem generateComparisons_alignment (zone : TimeZone) (now : Date) (weatherData : WeatherData) :
  List.length (time (daily weatherData)) = 7%nat ->
  exists r : ComparisonResult ComparisonData,
    liveComparisons zone now weatherData = Ok r /\
    (forall i : nat, (i < 6)%nat -> alignedAt weatherData r i (i + 2)) /\
    (forall i : nat, (i < 5)%nat ->
       nth_error (calculatePFI weatherData) (i + 2) =
         Some (calculatePFIDay (daily weatherData) (i + 2)) /\
       nth_error (detectHazards weatherData) (i + 2) =
         Some (detectHazard (daily weatherData) (i + 2))) /\
    nth_error (pfiValues (weekPFI r)) 5 = Some None /\
    nth_error (weekPrecipitation r) 5 = Some noPrecipDisplay /\
    nth_error (weekHazards r) 5 = Some noHazardDisplay.
Proof.
  intros Hlen.
  destruct (liveComparisons_seven_last_slot zone now weatherData Hlen)
    as (r & Hok & Haligned & Hlast).
  exists r. split; [exact Hok |]. split; [exact Haligned |]. split.
  - intros i Hi. split.
    + apply calculatePFI_nth. lia.
    + apply detectHazards_nth. lia.
  - exact Hlast.
Qed.

Lemma generateComparisons_alignment_witness :
  exists r : ComparisonResult ComparisonData,
    liveComparisons utc 19001%Z sevenDays = Ok r /\
    alignedAt sevenDays r 0 2 /\
    nth_error (pfiValues (weekPFI r)) 5 = Some None.
Proof.
  destruct (generateComparisons_alignment utc 19001%Z sevenDays)
    as (r & Hok & Haligned & _ & Hnull & _).
  - reflexivity.
  - exists r. split; [exact Hok |]. split; [| exact Hnull].
    apply (Haligned 0%nat). lia.
Defined.

(** C1 as written fails: in a 7-day window the last forward slot holds no
    day of the window; its PFI is [null], which is the PFI of none of the
    seven days. *)
Lemma last_slot_of_seven_days_has_no_day :
  exists r : ComparisonResult ComparisonData,
    liveComparisons utc 19001%Z sevenDays = Ok r /\
    ~ (exists j : nat, (j < 7)%nat /\ alignedAt sevenDays r 5 j).
Proof.
  destruct (liveComparisons_seven_last_slot utc 19001%Z sevenDays)
    as (r & Hok & _ & Hnull & _); [reflexivity |].
  exists r. split; [exact Hok |].
  intros (j & Hj & Hpfi & _). rewrite Hnull in Hpfi.
  unfold derivedPfi in Hpfi.
  rewrite calculatePFI_nth in Hpfi by (simpl; lia).
  discriminate.
Qed.

(** *** Day labels of the forward series *)

(** The label of slot [i] on the live path: the weekday of the local date
    at midnight UTC of the date of day [i + 2] when the window has that
    day, the weekday of the wall clock date plus [i + 1] days when it has
    not. *)
Lemma liveComparisons_labels (zone : TimeZone) (now : Date) (weatherData : WeatherData) :
  (7 <= List.length (time (daily weatherData)))%nat ->
  exists r : ComparisonResult ComparisonData,
    liveComparisons zone now weatherData = Ok r /\
    List.length (dayNames (weekPFI r)) = 6%nat /\
    List.length (pfiValues (weekPFI r)) = 6%nat /\
    forall i : nat, (i < 6)%nat ->
      nth_error (dayNames (weekPFI r)) i =
        Some (match nth_error (time (daily weatherData)) (i + 2) with
              | Some d => weekdayShort (localDate zone d)
              | None => weekdayShort (addDays now (1 + i))
              end) /\
      nth_error (pfiValues (weekPFI r)) i = Some (derivedPfi weatherData (i + 2)).
Proof.
  intros Hlen.
  destruct (liveComparisons_enough zone now weatherData Hlen) as (r & Hok & Hweek & _).
  exists r. split; [exact Hok |]. rewrite Hweek.
  split; [reflexivity |]. split; [reflexivity |].
  intros i Hi. split; [| now apply week_slot_pfi].
  rewrite (week_slot_label zone now _ i Hi).
  destruct (Nat.lt_ge_cases (i + 2) (List.length (time (daily weatherData))))
    as [Hin | Hout].
  - rewrite (calculatePFI_nth _ _ Hin). unfold calculatePFIDay. cbn [date].
    reflexivity.
  - rewrite (calculatePFI_nth_beyond _ _ Hout).
    apply nth_error_None in Hout. now rewrite Hout.
Qed.

(** At or east of UTC the local date at midnight UTC of a day is that day;
    west of UTC it is the day before. *)
Lemma localDate_east (zone : TimeZone) (d : Date) :
  (0 <= zone d < 1440)%Z -> localDate zone d = d.
Proof.
  intros H. unfold localDate. rewrite (Z.div_small (zone d) 1440) by lia. lia.
Qed.

Lemma localDate_west (zone : TimeZone) (d : Date) :
  (-1440 <= zone d < 0)%Z -> localDate zone d = (d - 1)%Z.
Proof.
  intros H. unfold localDate.
  assert (Hdiv : (zone d / 1440 = -1)%Z).
  { symmetry. apply Z.div_unique with (r := (zone d + 1440)%Z); lia. }
  lia.
Qed.

(** C3, as the code has it. For every 7-day window the forward series has
    exactly 6 day names and 6 PFI entries and starts at tomorrow: slot i
    reads index i + 2, leaving out yesterday (0) and today (1). The first
    five labels come from the dates of those days, taken from the window,
    and never from the wall clock: they are the same whenever the window
    is read, and at or east of UTC each is the short weekday name of the
    date of its day. The sixth slot has no day in a 7-day window: its PFI
    is [null] and its label is the weekday of the wall clock date plus 6
    days. *)
Theorem generateComparisons_week_labels (zone : TimeZone) (now : Date)
    (weatherData : WeatherData) :
  List.length (time (daily weatherData)) = 7%nat ->
  exists r : ComparisonResult ComparisonData,
    liveComparisons zone now weatherData = Ok r /\
    List.length (dayNames (weekPFI r)) = 6%nat /\
    List.length (pfiValues (weekPFI r)) = 6%nat /\
    (forall i : nat, (i < 5)%nat ->
       (forall now' : Date,
          exists r' : ComparisonResult ComparisonData,
            liveComparisons zone now' weatherData = Ok r' /\
            nth_error (dayNames (weekPFI r')) i = nth_error (dayNames (weekPFI r)) i) /\
       (atOrEastOfUTC zone weatherData -> labelledByDay weatherData r i (i + 2)) /\
       nth_error (pfiValues (weekPFI r)) i =
         Some (Some (pfi (calculatePFIDay (daily weatherData) (i + 2))))) /\
    nth_error (dayNames (weekPFI r)) 5 = Some (weekdayShort (addDays now 6)) /\
    nth_error (pfiValues (weekPFI r)) 5 = Some None.
Proof.
  intros Hlen.
  destruct (liveComparisons_labels zone now weatherData)
    as (r & Hok & Hn & Hp & Hslot); [lia |].
  exists r. split; [exact Hok |]. split; [exact Hn |]. split; [exact Hp |].
  split; [| split].
  - intros i Hi. destruct (Hslot i) as (Hlabel & Hpfi); [lia |].
    split; [| split].
    + intros now'.
      destruct (liveComparisons_labels zone now' weatherData)
        as (r' & Hok' & _ & _ & Hslot'); [lia |].
      exists r'. split; [exact Hok' |].
      destruct (Hslot' i) as (Hlabel' & _); [lia |].
      rewrite Hlabel, Hlabel'.
      destruct (nth_error (time (daily weatherData)) (i + 2)) as [d |] eqn:Hd;
        [reflexivity |].
      apply nth_error_None in Hd. lia.
    + intros Heast.
      destruct (nth_error (time (daily weatherData)) (i + 2)) as [d |] eqn:Hd.
      2:{ apply nth_error_None in Hd. lia. }
      exists d. split; [exact Hd |].
      rewrite Hlabel, localDate_east; [reflexivity |].
      apply Heast. eapply nth_error_In. exact Hd.
    + rewrite Hpfi. unfold derivedPfi.
      rewrite calculatePFI_nth by lia. reflexivity.
  - destruct (Hslot 5%nat) as (Hlabel & _); [lia |].
    rewrite Hlabel.
    assert (Hd : nth_error (time (daily weatherData)) (5 + 2) = None)
      by (apply nth_error_None; lia).
    rewrite Hd. reflexivity.
  - destruct (Hslot 5%nat) as (_ & Hpfi); [lia |].
    rewrite Hpfi. unfold derivedPfi.
    rewrite calculatePFI_nth_beyond by (simpl; lia). reflexivity.
Qed.

Lemma generateComparisons_week_labels_witness :
  exists r : ComparisonResult ComparisonData,
    liveComparisons utc 19001%Z sevenDays = Ok r /\
    List.length (dayNames (weekPFI r)) = 6%nat /\
    labelledByDay sevenDays r 0 2 /\
    (exists r' : ComparisonResult ComparisonData,
       liveComparisons utc 19003%Z sevenDays = Ok r' /\
       nth_error (dayNames (weekPFI r')) 0 = nth_error (dayNames (weekPFI r)) 0) /\
    nth_error (dayNames (weekPFI r)) 5 = Some (weekdayShort (addDays 19001%Z 6)).
Proof.
  destruct (generateComparisons_week_labels utc 19001%Z sevenDays)
    as (r & Hok & Hn & _ & Hfirst & Hlast & _).
  - reflexivity.
  - exists r. split; [exact Hok |]. split; [exact Hn |].
    destruct (Hfirst 0%nat) as (Hclock & Hday & _); [lia |].
    split; [| split; [exact (Hclock 19003%Z) | exact Hlast]].
    apply Hday. intros d _. unfold utc. lia.
Defined.

(** C3 as written fails: in a 7-day window the sixth label does not come
    from a date of the window. The same window read on two different days
    gets two different sixth labels, and no day of the window stands
    behind the slot. *)
Lemma sixth_label_follows_the_wall_clock :
  exists r r' : ComparisonResult ComparisonData,
    liveComparisons utc 19001%Z sevenDays = Ok r /\
    liveComparisons utc 19003%Z sevenDays = Ok r' /\
    nth_error (dayNames (weekPFI r)) 5 = Some "Sat" /\
    nth_error (dayNames (weekPFI r')) 5 = Some "Mon" /\
    ~ labelledByDay sevenDays r 5 (5 + 2).
Proof.
  destruct (liveComparisons_labels utc 19001%Z sevenDays) as (r & Hok & _ & _ & Hslot);
    [simpl; lia |].
  destruct (liveComparisons_labels utc 19003%Z sevenDays) as (r' & Hok' & _ & _ & Hslot');
    [simpl; lia |].
  exists r, r'. split; [exact Hok |]. split; [exact Hok' |].
  destruct (Hslot 5%nat) as (Hlabel & _); [lia |].
  destruct (Hslot' 5%nat) as (Hlabel' & _); [lia |].
  split; [rewrite Hlabel; reflexivity |].
  split; [rewrite Hlabel'; reflexivity |].
  intros (d & Hd & _). discriminate Hd.
Qed.

(** ** Rendering: hazard over precipitation *)

Lemma nth_error_setAt_same {A : Type} (a : list A) (i : nat) (v : A) :
  (i < List.length a)%nat -> nth_error (setAt a i v) i = Some v.
Proof.
  revert i. induction a as [| x rest IH]; intros [| j] Hi; simpl in *;
    try lia; [reflexivity |].
  apply IH. lia.
Qed.

Lemma nth_error_setAt_other {A : Type} (a : list A) (i k : nat) (v : A) :
  i <> k -> nth_error (setAt a i v) k = nth_error a k.
Proof.
  revert i k. induction a as [| x rest IH]; intros [| j] [| k] Hneq; simpl;
    try reflexivity; try congruence.
  apply IH. congruence.
Qed.

Lemma length_setAt {A : Type} (a : list A) (i : nat) (v : A) :
  List.length (setAt a i v) = List.length a.
Proof.
  revert i. induction a as [| x rest IH]; intros [| j]; simpl; auto.
Qed.

Section Rendering.

Context {TC : Type} (comparisons : ComparisonResult TC).



(** Items before the current position are left alone. *)
Lemma displayWeek_before (names : list string) :
  forall (index : nat) (dayItems : list DayItem) (k : nat),
    (k < index)%nat ->
    nth_error (fst (displayWeek comparisons names index dayItems)) k =
    nth_error dayItems k.
Proof.
  induction names as [| dayName rest IH]; intros index dayItems k Hk; simpl.
  - reflexivity.
  - destruct (nth_error dayItems index) as [dayItem |]; [| reflexivity].
    rewrite IH by lia. apply nth_error_setAt_other. lia.
Qed.

(** Every item that has a name and exists is rendered once, by the
    callback, from what the page held. *)
Lemma displayWeek_slot (names : list string) :
  forall (index : nat) (dayItems : list DayItem) (k : nat),
    (index <= k)%nat ->
    (k - index < List.length names)%nat ->
    (k < List.length dayItems)%nat ->
    exists (dayName : string) (dayItem : DayItem),
      nth_error names (k - index) = Some dayName /\
      nth_error dayItems k = Some dayItem /\
      nth_error (fst (displayWeek comparisons names index dayItems)) k =
      Some (displayDay comparisons dayName k dayItem).
Proof.
  induction names as [| dayName rest IH]; intros index dayItems k Hle Hname Hitem;
    simpl in Hname; [lia |].
  simpl.
  destruct (nth_error dayItems index) as [dayItem |] eqn:Hindex.
  2:{ apply nth_error_None in Hindex. lia. }
  destruct (Nat.eq_dec k index) as [-> | Hneq].
  - exists dayName, dayItem. rewrite Nat.sub_diag. repeat split; trivial.
    rewrite displayWeek_before by lia.
    apply nth_error_setAt_same. lia.
  - destruct (IH (S index)
                (setAt dayItems index (displayDay comparisons dayName index dayItem))
                k) as (name' & item' & Hn & Hi & Hk).
    + lia.
    + lia.
    + rewrite length_setAt. lia.
    + exists name', item'.
      replace (k - index)%nat with (S (k - S index)) by lia.
      rewrite nth_error_setAt_other in Hi by lia.
      repeat split; trivial.
Qed.

(** The iteration ends without an exception when the page has an item
    for every name. *)
Lemma displayWeek_completes (names : list string) :
  forall (index : nat) (dayItems : list DayItem),
    (index + List.length names <= List.length dayItems)%nat ->
    snd (displayWeek comparisons names index dayItems) = None.
Proof.
  induction names as [| dayName rest IH]; intros index dayItems Hlen; simpl in *.
  - reflexivity.
  - destruct (nth_error dayItems index) as [dayItem |] eqn:Hindex.
    + apply IH. rewrite length_setAt. lia.
    + apply nth_error_None in Hindex. lia.
Qed.

End Rendering.



(** * Further properties of the code *)

(** ** Comparisons of numbers as comparisons of rationals *)

Module NumOrder.

Lemma gt_spec (x y : Q) : reflect (y < x)%Q (Fin x >? Fin y).
Proof.
  unfold gt. destruct (x ?= y)%Q eqn:E; constructor;
    [apply Qeq_alt in E | apply Qlt_alt in E | apply Qgt_alt in E]; lra.
Qed.

Lemma lt_spec (x y : Q) : reflect (x < y)%Q (Fin x <? Fin y).
Proof.
  unfold lt. destruct (x ?= y)%Q eqn:E; constructor;
    [apply Qeq_alt in E | apply Qlt_alt in E | apply Qgt_alt in E]; lra.
Qed.

Lemma ge_spec (x y : Q) : reflect (y <= x)%Q (Fin x >=? Fin y).
Proof.
  unfold ge. destruct (x ?= y)%Q eqn:E; constructor;
    [apply Qeq_alt in E | apply Qlt_alt in E | apply Qgt_alt in E]; lra.
Qed.

Lemma le_spec (x y : Q) : reflect (x <= y)%Q (Fin x <=? Fin y).
Proof.
  unfold le. destruct (x ?= y)%Q eqn:E; constructor;
    [apply Qeq_alt in E | apply Qlt_alt in E | apply Qgt_alt in E]; lra.
Qed.

Lemma percentageOf_monotone (d1 d2 : Q) :
  (d1 <= d2)%Q -> (percentageOf d1 <= percentageOf d2)%Z.
Proof.
  intros H. unfold percentageOf. apply Qfloor_resp_le. lra.
Qed.

Lemma trendOfPercentage_monotone (p q : Z) :
  (p <= q)%Z -> (trendRank (trendOfPercentage p) <= trendRank (trendOfPercentage q))%Z.
Proof.
  intros H. unfold trendOfPercentage.
  repeat match goal with
         | |- context [(?a >? ?b)%Z] => destruct (Z.gtb_spec a b)
         | |- context [(?a <? ?b)%Z] => destruct (Z.ltb_spec a b)
         end; simpl; lia.
Qed.

End NumOrder.

(** ** The precipitation resolver and its display *)

(** The five outcomes of resolving and labelling a numeric pair. *)
Lemma precipitation_display_cases (r s : Q) :
  let d := getPrecipitationDisplay (determinePrecipitationType (Fin r) (Fin s)) in
  (r <= 30 -> s <= 30 -> d = noPrecipDisplay)%Q /\
  (s < r -> 60 < r -> d = mkPrecipDisplay "rainy" "Rain expected" true)%Q /\
  (s < r -> 30 < r -> r <= 60 -> d = mkPrecipDisplay "rainy" "Likely to rain" true)%Q /\
  (r <= s -> 60 < s -> d = mkPrecipDisplay "ac_unit" "Snow expected" true)%Q /\
  (r <= s -> 30 < s -> s <= 60 -> d = mkPrecipDisplay "ac_unit" "Likely to snow" true)%Q.
Proof.
  cbn zeta. unfold determinePrecipitationType, getPrecipitationDisplay.
  destruct (NumOrder.le_spec r 30), (NumOrder.le_spec s 30),
    (NumOrder.gt_spec r s); cbn [andb type probability];
    destruct (NumOrder.gt_spec r 60), (NumOrder.gt_spec s 60);
    repeat split; intros; try reflexivity; lra.
Qed.

(** X1. For numeric probabilities the precipitation display is on show
    exactly when rain or snow is above 30; the strictly higher side gives
    the icon (snow on a tie), and its probability gives the wording:
    "expected" above 60, "likely" from above 30 up to 60. *)
Theorem precipitation_display_numeric (r s : Q) :
  let d := getPrecipitationDisplay (determinePrecipitationType (Fin r) (Fin s)) in
  (p_show d = true <-> 30 < r \/ 30 < s)%Q /\
  (s < r -> 60 < r -> d = mkPrecipDisplay "rainy" "Rain expected" true)%Q /\
  (s < r -> 30 < r -> r <= 60 -> d = mkPrecipDisplay "rainy" "Likely to rain" true)%Q /\
  (r <= s -> 60 < s -> d = mkPrecipDisplay "ac_unit" "Snow expected" true)%Q /\
  (r <= s -> 30 < s -> s <= 60 -> d = mkPrecipDisplay "ac_unit" "Likely to snow" true)%Q.
Proof.
  pose proof (precipitation_display_cases r s) as H. cbn zeta in *.
  destruct H as (Hnone & Hre & Hrl & Hse & Hsl).
  split; [| repeat split; assumption].
  split.
  - intros Hshow.
    destruct (Qlt_le_dec 30 r) as [Hr | Hr]; [now left |].
    destruct (Qlt_le_dec 30 s) as [Hs | Hs]; [now right |].
    rewrite (Hnone Hr Hs) in Hshow. discriminate.
  - intros Habove.
    destruct (Qlt_le_dec s r) as [Hsr | Hsr].
    + destruct (Qlt_le_dec 60 r) as [H60 | H60].
      * now rewrite (Hre Hsr H60).
      * assert (H30 : (30 < r)%Q) by (destruct Habove; lra).
        now rewrite (Hrl Hsr H30 H60).
    + destruct (Qlt_le_dec 60 s) as [H60 | H60].
      * now rewrite (Hse Hsr H60).
      * assert (H30 : (30 < s)%Q) by (destruct Habove; lra).
        now rewrite (Hsl Hsr H30 H60).
Qed.

Lemma precipitation_display_numeric_witness :
  getPrecipitationDisplay (determinePrecipitationType (Fin 70) (Fin 15))
    = mkPrecipDisplay "rainy" "Rain expected" true /\
  getPrecipitationDisplay (determinePrecipitationType (Fin 20) (Fin 40))
    = mkPrecipDisplay "ac_unit" "Likely to snow" true.
Proof.
  destruct (precipitation_display_numeric 70 15) as (_ & Hrain & _).
  destruct (precipitation_display_numeric 20 40) as (_ & _ & _ & _ & Hsnow).
  split.
  - apply Hrain; reflexivity.
  - apply Hsnow; [discriminate | reflexivity | discriminate].
Defined.

(** X2. When either probability is not a number the resolver answers
    snow, on show, whatever the other value is: a comparison with a
    missing value is false, so neither the "both at most 30" test nor the
    "rain is higher" test can hold. *)
Theorem precipitation_not_a_number_is_snow (rainProb snowProb : number) :
  rainProb = NaN \/ snowProb = NaN ->
  determinePrecipitationType rainProb snowProb =
    Some (mkPrecipitationData type_snow snowProb) /\
  p_show (getPrecipitationDisplay (determinePrecipitationType rainProb snowProb))
    = true /\
  p_icon (getPrecipitationDisplay (determinePrecipitationType rainProb snowProb))
    = "ac_unit".
Proof.
  intros [-> | ->].
  - repeat split.
  - assert (H : determinePrecipitationType rainProb NaN =
                Some (mkPrecipitationData type_snow NaN)).
    { unfold determinePrecipitationType. destruct rainProb as [r |]; simpl.
      - now rewrite andb_false_r.
      - reflexivity. }
    rewrite H. repeat split.
Qed.

Lemma precipitation_not_a_number_is_snow_witness :
  determinePrecipitationType (Fin 90) NaN =
    Some (mkPrecipitationData type_snow NaN) /\
  determinePrecipitationType NaN (Fin 10) =
    Some (mkPrecipitationData type_snow (Fin 10)).
Proof.
  split.
  - apply (precipitation_not_a_number_is_snow (Fin 90) NaN). now right.
  - apply (precipitation_not_a_number_is_snow NaN (Fin 10)). now left.
Defined.

(** ** Precipitation on the live path *)

Lemma calculatePFIDay_avg (daily : Daily) (i : nat) (tmin tmax : Q) :
  cell (apparent_temperature_min daily) i = Fin tmin ->
  cell (apparent_temperature_max daily) i = Fin tmax ->
  avgApparentTemp (calculatePFIDay daily i) = Fin ((tmin + tmax) / 2).
Proof.
  intros Hmin Hmax. unfold calculatePFIDay. cbn [avgApparentTemp].
  rewrite Hmin, Hmax. reflexivity.
Qed.

Lemma derivedPrecipitation_day (weatherData : WeatherData) (j : nat) (tmin tmax p : Q) :
  (j < List.length (time (daily weatherData)))%nat ->
  cell (apparent_temperature_min (daily weatherData)) j = Fin tmin ->
  cell (apparent_temperature_max (daily weatherData)) j = Fin tmax ->
  or0 (cell (precipitation_probability_max (daily weatherData)) j) = Fin p ->
  derivedPrecipitation weatherData j =
  getPrecipitationDisplay
    (determinePrecipitationType
       (if Fin ((tmin + tmax) / 2) >? Fin 0 then Fin p else Fin 0)
       (if Fin ((tmin + tmax) / 2) <=? Fin 0 then Fin p else Fin 0)).
Proof.
  intros Hj Hmin Hmax Hp. unfold derivedPrecipitation.
  rewrite (calculatePFI_nth _ _ Hj). unfold precipDisplayOf, calculatePFIDay.
  cbn [precipitation rain snow]. rewrite Hmin, Hmax, Hp. reflexivity.
Qed.

(** X3. On the live path the precipitation display of a day with numeric
    temperatures is decided by the day's probability p (0 when missing)
    and the sign of the average apparent temperature alone: nothing is
    shown for p at most 30; otherwise rain above zero degrees and snow at
    zero or below, "likely" up to 60 and "expected" above. *)
Theorem live_precipitation_display (weatherData : WeatherData) (j : nat)
    (tmin tmax p : Q) :
  (j < List.length (time (daily weatherData)))%nat ->
  cell (apparent_temperature_min (daily weatherData)) j = Fin tmin ->
  cell (apparent_temperature_max (daily weatherData)) j = Fin tmax ->
  or0 (cell (precipitation_probability_max (daily weatherData)) j) = Fin p ->
  let avg := ((tmin + tmax) / 2)%Q in
  let d := derivedPrecipitation weatherData j in
  (p <= 30 -> d = noPrecipDisplay)%Q /\
  (0 < avg -> 30 < p -> p <= 60 -> d = mkPrecipDisplay "rainy" "Likely to rain" true)%Q /\
  (0 < avg -> 60 < p -> d = mkPrecipDisplay "rainy" "Rain expected" true)%Q /\
  (avg <= 0 -> 30 < p -> p <= 60 -> d = mkPrecipDisplay "ac_unit" "Likely to snow" true)%Q /\
  (avg <= 0 -> 60 < p -> d = mkPrecipDisplay "ac_unit" "Snow expected" true)%Q.
Proof.
  intros Hj Hmin Hmax Hp. cbn zeta.
  rewrite (derivedPrecipitation_day weatherData j tmin tmax p Hj Hmin Hmax Hp).
  destruct (NumOrder.gt_spec ((tmin + tmax) / 2) 0) as [Hpos | Hneg],
           (NumOrder.le_spec ((tmin + tmax) / 2) 0) as [Hle | Hgt];
    try lra.
  - destruct (precipitation_display_cases p 0) as (Hnone & Hre & Hrl & _).
    cbn zeta in *.
    repeat split; intros; try lra.
    + apply Hnone; lra.
    + apply Hrl; lra.
    + apply Hre; lra.
  - destruct (precipitation_display_cases 0 p) as (Hnone & _ & _ & Hse & Hsl).
    cbn zeta in *.
    repeat split; intros; try lra.
    + apply Hnone; lra.
    + apply Hsl; lra.
    + apply Hse; lra.
Qed.

Lemma live_precipitation_display_witness :
  derivedPrecipitation sevenDays 2 = mkPrecipDisplay "rainy" "Rain expected" true /\
  derivedPrecipitation sevenDays 3 = noPrecipDisplay.
Proof.
  destruct (live_precipitation_display sevenDays 2 12 22 70)
    as (_ & _ & Hrain & _); try reflexivity; [simpl; lia |].
  destruct (live_precipitation_display sevenDays 3 13 23 10)
    as (Hnone & _); try reflexivity; [simpl; lia |].
  split.
  - apply Hrain; reflexivity.
  - apply Hnone. discriminate.
Defined.

(** ** The trend as a function of the difference *)

(** X5. The live trend never moves against the difference: a larger
    numeric difference gives the same or a hotter trend. *)
Theorem generateComparisonData_monotone (d1 d2 : Q) (dayName : string) :
  (d1 <= d2)%Q ->
  (trendRank (comparison (generateComparisonData (Fin d1) dayName)) <=
   trendRank (comparison (generateComparisonData (Fin d2) dayName)))%Z.
Proof.
  intros H. rewrite !generateComparisonData_percentage. cbn zeta. cbn [comparison].
  apply NumOrder.trendOfPercentage_monotone, NumOrder.percentageOf_monotone, H.
Qed.

Lemma generateComparisonData_monotone_witness :
  (trendRank (comparison (generateComparisonData (Fin (-2)) "Today")) <=
   trendRank (comparison (generateComparisonData (Fin 4) "Today")))%Z.
Proof.
  apply (generateComparisonData_monotone (-2) 4 "Today"). discriminate.
Defined.

(** X6. Whatever the difference, the arrow returned by
    [generateComparisonData] is the one of the trend (up for the three
    hotter trends, down for the three colder ones, flat for "same"), and
    the two display texts are the same: the arrow alone, or the arrow with
    the returned percentage.  A difference that is not a number gives
    "same" with the arrow alone. *)
Theorem generateComparisonData_consistent (difference : number) (dayName : string) :
  let r := generateComparisonData difference dayName in
  arrow r = arrowOf (comparison r) /\
  htmlDisplay r = fullDisplay r /\
  (fullDisplay r = ArrowOnly (arrow r) \/
   fullDisplay r = ArrowPercent (arrow r) (percentage r)) /\
  (difference = NaN ->
   comparison r = same /\ percentage r = NaN /\
   fullDisplay r = ArrowOnly arrow_flat).
Proof.
  destruct difference as [d |]; cbn zeta.
  - rewrite generateComparisonData_percentage. cbn zeta.
    cbn [arrow comparison fullDisplay htmlDisplay percentage].
    unfold trendOfPercentage.
    repeat split; try discriminate.
    + split_ifs; reflexivity.
    + destruct (Z.abs (percentageOf d) >=? 5)%Z; [right | left]; reflexivity.
  - repeat split. left. reflexivity.
Qed.

Lemma generateComparisonData_consistent_witness :
  comparison (generateComparisonData NaN "Today") = same /\
  fullDisplay (generateComparisonData NaN "Today") = ArrowOnly arrow_flat.
Proof.
  destruct (generateComparisonData_consistent NaN "Today") as (_ & _ & _ & Hnan).
  destruct Hnan as (Hsame & _ & Hfull); [reflexivity |].
  split; assumption.
Defined.

(** ** Today's values on the live path *)

Lemma liveComparisons_today (zone : TimeZone) (now : Date) (weatherData : WeatherData) :
  (7 <= List.length (time (daily weatherData)))%nat ->
  exists r : ComparisonResult ComparisonData,
    liveComparisons zone now weatherData = Ok r /\
    todayPFI r = pfi (calculatePFIDay (daily weatherData) 1) /\
    todayComparison r =
      generateComparisonData
        (pfi (calculatePFIDay (daily weatherData) 1)
         - pfi (calculatePFIDay (daily weatherData) 0)) "Today" /\
    todayPrecipitation r = derivedPrecipitation weatherData 1 /\
    todayHazard r = derivedHazard weatherData 1.
Proof.
  intros Hlen. unfold liveComparisons. cbn zeta.
  pose proof Hlen as Hlen'. rewrite <- calculatePFI_length in Hlen'.
  destruct (generateComparisons_enough zone now _ (current_temperature_2m weatherData)
              weatherData Hlen') as (y & t & Hy & Ht & Hok).
  rewrite calculatePFI_nth in Hy, Ht by lia.
  injection Hy as <-. injection Ht as <-.
  eexists. split; [exact Hok |].
  cbn [todayPFI todayComparison todayPrecipitation todayHazard].
  unfold derivedPrecipitation. rewrite calculatePFI_nth by lia.
  repeat split.
Qed.

(** X7. On the live path, for every window of at least 7 days, today's
    PFI, precipitation display and hazard display are all those of day 1
    of the window, and the trend is computed from the PFI of day 1 less
    the PFI of day 0. *)
Theorem live_today_is_day_one (zone : TimeZone) (now : Date) (weatherData : WeatherData) :
  (7 <= List.length (time (daily weatherData)))%nat ->
  exists r : ComparisonResult ComparisonData,
    liveComparisons zone now weatherData = Ok r /\
    derivedPfi weatherData 1 = Some (todayPFI r) /\
    todayPrecipitation r = derivedPrecipitation weatherData 1 /\
    todayHazard r = derivedHazard weatherData 1 /\
    exists today yesterday : number,
      derivedPfi weatherData 1 = Some today /\
      derivedPfi weatherData 0 = Some yesterday /\
      todayComparison r = generateComparisonData (today - yesterday) "Today".
Proof.
  intros Hlen.
  destruct (liveComparisons_today zone now weatherData Hlen)
    as (r & Hok & Hpfi & Htrend & Hprecip & Hhazard).
  exists r. unfold derivedPfi. rewrite !calculatePFI_nth by lia. cbn [option_map].
  repeat split; try assumption; [now rewrite Hpfi |].
  eexists _, _. repeat split. exact Htrend.
Qed.

Lemma live_today_is_day_one_witness :
  exists r : ComparisonResult ComparisonData,
    liveComparisons utc 19001%Z sevenDays = Ok r /\
    derivedPfi sevenDays 1 = Some (todayPFI r) /\
    todayHazard r = derivedHazard sevenDays 1.
Proof.
  destruct (live_today_is_day_one utc 19001%Z sevenDays)
    as (r & Hok & Hpfi & _ & Hhazard & _).
  - simpl. lia.
  - exists r. repeat split; assumption.
Defined.

Lemma calculatePFIDay_pfi_missing (daily : Daily) (j : nat) :
  cell (apparent_temperature_min daily) j = NaN \/
  cell (apparent_temperature_max daily) j = NaN \/
  cell (cloudcover_mean daily) j = NaN ->
  pfi (calculatePFIDay daily j) = NaN.
Proof.
  unfold calculatePFIDay. cbn [pfi].
  intros [H | [H | H]]; rewrite H.
  - reflexivity.
  - now destruct (cell (apparent_temperature_min daily) j).
  - destruct ((cell (apparent_temperature_min daily) j
               + cell (apparent_temperature_max daily) j) / Fin 2);
      reflexivity.
Qed.

(** X8. When the minimum temperature, the maximum temperature or the cloud
    cover of yesterday or of today is [undefined] in a window of at least
    7 days (its array has no cell for that day), the live path does not
    fail: the PFI of that day is [NaN], so is [todayPFI] when the day is
    today, and the trend is reported as "same", with the flat arrow and no
    percentage.  A cell that is [null] is not such a case: it counts as
    0. *)
Theorem live_missing_cell_reports_same (zone : TimeZone) (now : Date) (weatherData : WeatherData)
    (j : nat) :
  (7 <= List.length (time (daily weatherData)))%nat ->
  (j < 2)%nat ->
  cell (apparent_temperature_min (daily weatherData)) j = NaN \/
  cell (apparent_temperature_max (daily weatherData)) j = NaN \/
  cell (cloudcover_mean (daily weatherData)) j = NaN ->
  exists r : ComparisonResult ComparisonData,
    liveComparisons zone now weatherData = Ok r /\
    derivedPfi weatherData j = Some NaN /\
    (j = 1%nat -> todayPFI r = NaN) /\
    comparison (todayComparison r) = same /\
    fullDisplay (todayComparison r) = ArrowOnly arrow_flat.
Proof.
  intros Hlen Hj Hmissing.
  destruct (liveComparisons_today zone now weatherData Hlen)
    as (r & Hok & Htoday & Htrend & _).
  exists r. split; [exact Hok |].
  apply calculatePFIDay_pfi_missing in Hmissing.
  split; [| split].
  - unfold derivedPfi. rewrite calculatePFI_nth by lia.
    cbn [option_map]. now rewrite Hmissing.
  - intros ->. now rewrite Htoday.
  - rewrite Htrend.
    destruct j as [| [| j]]; [| | lia]; rewrite Hmissing.
    + destruct (pfi (calculatePFIDay (daily weatherData) 1)); split; reflexivity.
    + split; reflexivity.
Qed.

Lemma live_missing_cell_reports_same_witness :
  cell (cloudcover_mean (daily sevenDaysOneCloudCell)) 1 = NaN /\
  exists r : ComparisonResult ComparisonData,
    liveComparisons utc 19001%Z sevenDaysOneCloudCell = Ok r /\
    derivedPfi sevenDaysOneCloudCell 1 = Some NaN /\
    todayPFI r = NaN /\
    comparison (todayComparison r) = same /\
    fullDisplay (todayComparison r) = ArrowOnly arrow_flat.
Proof.
  split; [reflexivity |].
  destruct (live_missing_cell_reports_same utc 19001%Z sevenDaysOneCloudCell 1)
    as (r & Hok & Hpfi & Htoday & Htrend & Hdisplay).
  - simpl. lia.
  - lia.
  - right. right. reflexivity.
  - exists r. split; [exact Hok |]. split; [exact Hpfi |].
    split; [now apply Htoday |]. split; assumption.
Defined.

(** ** Bounds on the PFI *)

(** X9. For a day with numeric cells, a minimum not above the maximum and
    a cloud cover between 0 and 100, the PFI stays within one degree of
    the average apparent temperature, hence between the minimum less one
    and the maximum plus one; a clear sky adds a degree and a full cover
    takes one away. *)
Theorem calculatePFI_within_one_degree (weatherData : WeatherData) (j : nat)
    (tmin tmax cloud : Q) :
  (j < List.length (time (daily weatherData)))%nat ->
  cell (apparent_temperature_min (daily weatherData)) j = Fin tmin ->
  cell (apparent_temperature_max (daily weatherData)) j = Fin tmax ->
  cell (cloudcover_mean (daily weatherData)) j = Fin cloud ->
  (tmin <= tmax)%Q -> (0 <= cloud <= 100)%Q ->
  exists v : Q,
    derivedPfi weatherData j = Some (Fin v) /\
    ((tmin + tmax) / 2 - 1 <= v <= (tmin + tmax) / 2 + 1)%Q /\
    (tmin - 1 <= v <= tmax + 1)%Q /\
    (cloud == 0 -> v == (tmin + tmax) / 2 + 1)%Q /\
    (cloud == 100 -> v == (tmin + tmax) / 2 - 1)%Q.
Proof.
  intros Hj Hmin Hmax Hcloud Horder Hrange.
  exists ((tmin + tmax) / 2 + 0.02 * (50 - cloud))%Q.
  split.
  - unfold derivedPfi. rewrite (calculatePFI_nth _ _ Hj). cbn [option_map].
    unfold calculatePFIDay. cbn [pfi]. rewrite Hmin, Hmax, Hcloud. reflexivity.
  - assert (Havg : ((tmin + tmax) / 2 == (tmin + tmax) * (1 # 2))%Q)
      by (unfold Qdiv; reflexivity).
    repeat split; intros; rewrite ?Havg; lra.
Qed.

Lemma calculatePFI_within_one_degree_witness :
  exists v : Q,
    derivedPfi mildDay 0 = Some (Fin v) /\ (10 - 1 <= v <= 20 + 1)%Q.
Proof.
  destruct (calculatePFI_within_one_degree mildDay 0 10 20 50)
    as (v & Hpfi & _ & Hbounds & _); try reflexivity.
  - simpl. lia.
  - discriminate.
  - split; discriminate.
  - exists v. split; assumption.
Defined.

(** ** A window of eight days *)

Lemma generateWeekPFI_from_data (zone : TimeZone) (now : Date)
    (weatherData : WeatherData) :
  (8 <= List.length (time (daily weatherData)))%nat ->
  generateWeekPFI zone now (slice1 (calculatePFI weatherData)) =
  mkWeekPFI
    (map (fun i => weekdayShort
                     (localDate zone (nth (1 + i) (time (daily weatherData)) 0%Z)))
         (seq 1 6))
    (map (fun i => Some (pfi (calculatePFIDay (daily weatherData) (1 + i)))) (seq 1 6)).
Proof.
  intros Hlen. unfold generateWeekPFI, slice1.
  f_equal; apply map_ext_in; intros i Hi; apply in_seq in Hi;
    rewrite nth_error_skipn, calculatePFI_nth by lia.
  - unfold calculatePFIDay. cbn [date].
    rewrite (nth_error_nth' (time (daily weatherData)) 0%Z); [reflexivity | lia].
  - reflexivity.
Qed.

(** X10. With the eight days the fetch asks for (or more), the result of
    the live path does not depend on the wall clock: every one of the six
    labels is computed from the date of its own day, index i + 2 of the
    window, and every forward PFI is a number.  The label is the weekday
    of that date at or east of UTC, and the weekday before it west of
    UTC. *)
Theorem live_eight_days_ignore_wall_clock (zone : TimeZone) (now now' : Date)
    (weatherData : WeatherData) :
  (8 <= List.length (time (daily weatherData)))%nat ->
  liveComparisons zone now weatherData = liveComparisons zone now' weatherData /\
  exists r : ComparisonResult ComparisonData,
    liveComparisons zone now weatherData = Ok r /\
    forall i : nat, (i < 6)%nat ->
      labelledFromDate zone weatherData r i (i + 2) /\
      (atOrEastOfUTC zone weatherData -> labelledByDay weatherData r i (i + 2)) /\
      (westOfUTC zone weatherData ->
       exists d : Date,
         nth_error (time (daily weatherData)) (i + 2) = Some d /\
         nth_error (dayNames (weekPFI r)) i = Some (weekdayShort (d - 1)%Z)) /\
      nth_error (pfiValues (weekPFI r)) i =
        Some (Some (pfi (calculatePFIDay (daily weatherData) (i + 2)))).
Proof.
  intros Hlen. split.
  - unfold liveComparisons. cbn zeta.
    assert (Hlen' : (7 <= List.length (calculatePFI weatherData))%nat)
      by (rewrite calculatePFI_length; lia).
    destruct (generateComparisons_enough zone now _
                (current_temperature_2m weatherData) weatherData Hlen')
      as (y & t & Hy & Ht & Hok).
    destruct (generateComparisons_enough zone now' _
                (current_temperature_2m weatherData) weatherData Hlen')
      as (y' & t' & Hy' & Ht' & Hok').
    rewrite Hok, Hok'. rewrite Hy in Hy'. rewrite Ht in Ht'.
    injection Hy' as <-. injection Ht' as <-.
    now rewrite !generateWeekPFI_from_data by lia.
  - destruct (liveComparisons_labels zone now weatherData)
      as (r & Hok & _ & _ & Hslot); [lia |].
    exists r. split; [exact Hok |].
    intros i Hi. destruct (Hslot i Hi) as (Hlabel & Hpfi).
    destruct (nth_error (time (daily weatherData)) (i + 2)) as [d |] eqn:Hd.
    2:{ apply nth_error_None in Hd. lia. }
    assert (Hin : In d (time (daily weatherData)))
      by (eapply nth_error_In; exact Hd).
    split; [| split; [| split]].
    + exists d. split; [exact Hd | exact Hlabel].
    + intros Heast. exists d. split; [exact Hd |].
      now rewrite Hlabel, localDate_east by (now apply Heast).
    + intros Hwest. exists d. split; [reflexivity |].
      now rewrite Hlabel, localDate_west by (now apply Hwest).
    + rewrite Hpfi. unfold derivedPfi. rewrite calculatePFI_nth by lia. reflexivity.
Qed.

Lemma live_eight_days_ignore_wall_clock_witness :
  liveComparisons fiveHoursWest 19001%Z eightDays
    = liveComparisons fiveHoursWest 19003%Z eightDays /\
  exists r : ComparisonResult ComparisonData,
    liveComparisons fiveHoursWest 19001%Z eightDays = Ok r /\
    nth_error (dayNames (weekPFI r)) 0 = Some "Sun".
Proof.
  destruct (live_eight_days_ignore_wall_clock fiveHoursWest 19001%Z 19003%Z eightDays)
    as (Hsame & r & Hok & Hslot).
  - simpl. lia.
  - split; [exact Hsame |]. exists r. split; [exact Hok |].
    destruct (Hslot 0%nat) as (_ & _ & Hwest & _); [lia |].
    destruct Hwest as (d & Hd & Hlabel).
    + intros d' _. unfold fiveHoursWest. lia.
    + injection Hd as <-. exact Hlabel.
Defined.

(** ** The mock path *)

Lemma generateMockComparisons_today (window : Window) (now : Date)
    (todayMock : Mock.MockDay) :
  getMockConfig window "today" = Some todayMock ->
  generateMockComparisons window now =
  Ok (mkComparisonResult (nullAsZero (mockPfiOf window "today"))
        (mkMockComparison
           (mockTrend
              (toNumber (Mock.pfi todayMock)
               - toNumber (match getMockConfig window "yesterday" with
                           | Some yesterdayMock => Mock.pfi yesterdayMock
                           | None => Mock.pfi_number (Fin 20)
                           end))))
        (mkWeekPFI (map (fun i => weekdayShort (addDays now i)) (seq 1 6))
           (map (mockPfiOf window) weekMockDays))
        (match Mock.precipitation todayMock with
         | Some p => getPrecipitationDisplay (determinePrecipitationType (rain p) (snow p))
         | None => noPrecipDisplay
         end)
        (map (mockPrecipitationOf window) weekMockDays)
        (getHazardDisplay (Mock.hazard todayMock))
        (map (mockHazardOf window) weekMockDays)).
Proof.
  intros Htoday. unfold generateMockComparisons. rewrite Htoday. reflexivity.
Qed.

(** X11. In mock mode, whenever the configuration has an entry for
    "today", the result has six forward slots, and slot i holds the PFI,
    the precipitation display and the hazard display of one and the same
    configured day: the i-th of tomorrow, day3, ..., day7.  The PFI of the
    slot is the [pfi] of that day when it is a number, [null] when it is
    [null] (the page then shows 0), and 22 when the [pfi] is [undefined]
    or the configuration lacks the day; a day the configuration lacks has
    empty displays.  [todayPFI] follows the same rule for "today", a
    [null] counting as 0.  The label of the slot is the weekday of the
    wall clock date plus i + 1 days. *)
Theorem mock_forward_slots_aligned (window : Window) (now : Date)
    (todayMock : Mock.MockDay) :
  getMockConfig window "today" = Some todayMock ->
  exists r : ComparisonResult MockComparison,
    generateMockComparisons window now = Ok r /\
    todayPFI r = nullAsZero (mockPfiOf window "today") /\
    List.length (dayNames (weekPFI r)) = 6%nat /\
    (forall i : nat, (i < 6)%nat ->
       exists dayKey : string,
         nth_error weekMockDays i = Some dayKey /\
         nth_error (pfiValues (weekPFI r)) i = Some (mockPfiOf window dayKey) /\
         nth_error (weekPrecipitation r) i = Some (mockPrecipitationOf window dayKey) /\
         nth_error (weekHazards r) i = Some (mockHazardOf window dayKey) /\
         nth_error (dayNames (weekPFI r)) i = Some (weekdayShort (addDays now (1 + i)))) /\
    (forall dayKey : string,
       (getMockConfig window dayKey = None ->
        mockPfiOf window dayKey = Some (Fin 22) /\
        mockPrecipitationOf window dayKey = noPrecipDisplay /\
        mockHazardOf window dayKey = noHazardDisplay) /\
       (forall mockData : Mock.MockDay,
          getMockConfig window dayKey = Some mockData ->
          (Mock.pfi mockData = Mock.pfi_undefined ->
           mockPfiOf window dayKey = Some (Fin 22)) /\
          (Mock.pfi mockData = Mock.pfi_null ->
           mockPfiOf window dayKey = None) /\
          (forall n : number, Mock.pfi mockData = Mock.pfi_number n ->
           mockPfiOf window dayKey = Some n))).
Proof.
  intros Htoday. eexists. split; [exact (generateMockComparisons_today _ now _ Htoday) |].
  cbn [todayPFI weekPFI dayNames pfiValues weekPrecipitation weekHazards].
  split; [reflexivity |]. split; [reflexivity |]. split.
  - intros i Hi.
    do 6 (destruct i as [| i]; [eexists; repeat split |]). lia.
  - intros dayKey. unfold mockPfiOf, mockPrecipitationOf, mockHazardOf. split.
    + intros ->. repeat split.
    + intros mockData ->. repeat split.
      * now intros ->.
      * now intros ->.
      * now intros n ->.
Qed.

Lemma mock_forward_slots_aligned_witness :
  (exists r : ComparisonResult MockComparison,
     generateMockComparisons shippedWindow 19001%Z = Ok r /\
     nth_error (pfiValues (weekPFI r)) 5 = Some (Some (Fin 43)) /\
     nth_error (weekHazards r) 5 = Some (mockHazardOf shippedWindow "day7")) /\
  (exists r : ComparisonResult MockComparison,
     generateMockComparisons mockNullAndUndefined 19001%Z = Ok r /\
     todayPFI r = Fin 0 /\
     nth_error (pfiValues (weekPFI r)) 0 = Some None /\
     nth_error (pfiValues (weekPFI r)) 1 = Some (Some (Fin 22)) /\
     nth_error (pfiValues (weekPFI r)) 2 = Some (Some (Fin 22))).
Proof.
  split.
  - destruct (mock_forward_slots_aligned shippedWindow 19001%Z
                (Mock.mkMockDay "today" (Mock.pfi_number (Fin 7))
                   (Some (mkPrecipitation (Fin 40) (Fin 20))) (Some HeavyRain)))
      as (r & Hok & _ & _ & Hslot & _).
    + reflexivity.
    + exists r. split; [exact Hok |].
      destruct (Hslot 5%nat) as (dayKey & Hkey & Hpfi & _ & Hhazard & _); [lia |].
      injection Hkey as <-. split; [| exact Hhazard].
      rewrite Hpfi. reflexivity.
  - destruct (mock_forward_slots_aligned mockNullAndUndefined 19001%Z
                (Mock.mkMockDay "today" Mock.pfi_null None None))
      as (r & Hok & Htoday & _ & Hslot & Hrule).
    + reflexivity.
    + exists r. split; [exact Hok |].
      split; [rewrite Htoday; reflexivity |].
      destruct (Hslot 0%nat) as (k0 & Hk0 & Hp0 & _); [lia |].
      destruct (Hslot 1%nat) as (k1 & Hk1 & Hp1 & _); [lia |].
      destruct (Hslot 2%nat) as (k2 & Hk2 & Hp2 & _); [lia |].
      injection Hk0 as <-. injection Hk1 as <-. injection Hk2 as <-.
      rewrite Hp0, Hp1, Hp2.
      destruct (proj2 (Hrule "tomorrow")
                  (Mock.mkMockDay "tomorrow" Mock.pfi_null None None) eq_refl)
        as (_ & Hnull & _).
      destruct (proj2 (Hrule "day3")
                  (Mock.mkMockDay "day3" Mock.pfi_undefined None None) eq_refl)
        as (Hundefined & _).
      destruct (proj1 (Hrule "day4") eq_refl) as (Hlacking & _).
      rewrite (Hnull eq_refl), (Hundefined eq_refl), Hlacking.
      repeat split.
Defined.

(** X12. [generateMockComparisons] fails, with a TypeError, exactly when
    no entry for "today" can be read: when mock mode is off or the
    configuration has no such day.  A missing "yesterday" is not an error:
    the trend is then taken against 20 degrees, with a [pfi] of today
    that is [null] counting as 0 (hence "significantly colder") and one
    that is [undefined] giving "same". *)
Theorem mock_needs_today_only (window : Window) (now : Date) :
  (generateMockComparisons window now = Throw TypeError <->
   getMockConfig window "today" = None) /\
  (TESTING_MODE window = false ->
   generateMockComparisons window now = Throw TypeError) /\
  (forall todayMock : Mock.MockDay,
     getMockConfig window "today" = Some todayMock ->
     getMockConfig window "yesterday" = None ->
     exists r : ComparisonResult MockComparison,
       generateMockComparisons window now = Ok r /\
       mock_comparison (todayComparison r) =
         mockTrend (toNumber (Mock.pfi todayMock) - Fin 20) /\
       (forall n : number, Mock.pfi todayMock = Mock.pfi_number n ->
        mock_comparison (todayComparison r) = mockTrend (n - Fin 20)) /\
       (Mock.pfi todayMock = Mock.pfi_null ->
        mock_comparison (todayComparison r) = significantly_colder) /\
       (Mock.pfi todayMock = Mock.pfi_undefined ->
        mock_comparison (todayComparison r) = same)).
Proof.
  split; [| split].
  - destruct (getMockConfig window "today") as [todayMock |] eqn:Htoday.
    + rewrite (generateMockComparisons_today _ now _ Htoday).
      split; discriminate.
    + unfold generateMockComparisons. rewrite Htoday. split; reflexivity.
  - intros Hoff. unfold generateMockComparisons, getMockConfig.
    rewrite Hoff. reflexivity.
  - intros todayMock Htoday Hyesterday.
    eexists. split; [exact (generateMockComparisons_today _ now _ Htoday) |].
    cbn [todayComparison mock_comparison]. rewrite Hyesterday.
    split; [reflexivity |]. split; [| split].
    + now intros n ->.
    + now intros ->.
    + now intros ->.
Qed.

Lemma mock_needs_today_only_witness :
  generateMockComparisons liveWindow 19001%Z = Throw TypeError /\
  (exists r : ComparisonResult MockComparison,
     generateMockComparisons mockTodayOnly 19001%Z = Ok r /\
     mock_comparison (todayComparison r) = mockTrend (Fin 24 - Fin 20)) /\
  (exists r : ComparisonResult MockComparison,
     generateMockComparisons mockNullAndUndefined 19001%Z = Ok r /\
     mock_comparison (todayComparison r) = significantly_colder).
Proof.
  split; [| split].
  - apply (mock_needs_today_only liveWindow 19001%Z). reflexivity.
  - destruct (mock_needs_today_only mockTodayOnly 19001%Z) as (_ & _ & Hbaseline).
    destruct (Hbaseline (Mock.mkMockDay "today" (Mock.pfi_number (Fin 24)) None None)
                eq_refl eq_refl) as (r & Hok & Htrend & _).
    exists r. split; assumption.
  - destruct (mock_needs_today_only mockNullAndUndefined 19001%Z) as (_ & _ & Hbaseline).
    destruct (Hbaseline (Mock.mkMockDay "today" Mock.pfi_null None None)
                eq_refl eq_refl) as (r & Hok & _ & _ & Hnull & _).
    exists r. split; [exact Hok |]. now apply Hnull.
Defined.

(** X13. [getMockConfig] answers only in mock mode, and then with the
    first entry of the configuration whose day is the key asked for; it
    answers nothing exactly when mock mode is off or no entry has that
    day. *)
Theorem getMockConfig_lookup (window : Window) (day : string) :
  (forall m : Mock.MockDay,
     getMockConfig window day = Some m ->
     TESTING_MODE window = true /\ Mock.day m = day /\
     exists before after : list Mock.MockDay,
       mockConfig window = (before ++ m :: after)%list /\
       forall m' : Mock.MockDay, In m' before -> Mock.day m' <> day) /\
  (getMockConfig window day = None <->
   TESTING_MODE window = false \/
   forall m : Mock.MockDay, In m (mockConfig window) -> Mock.day m <> day).
Proof.
  unfold getMockConfig.
  destruct (TESTING_MODE window); cbn [negb].
  2:{ split; [discriminate |]. split; [now left | reflexivity]. }
  induction (mockConfig window) as [| m0 rest [IHsome IHnone]]; cbn [find].
  - split; [discriminate |]. split; [| reflexivity].
    intros _. right. intros m [].
  - destruct (String.eqb_spec (Mock.day m0) day) as [Heq | Hneq].
    + split.
      * intros m [= <-]. repeat split; trivial.
        exists [], rest. split; [reflexivity |]. intros m' [].
      * split; [discriminate |].
        intros [Hoff | Hnone]; [discriminate |].
        exfalso. apply (Hnone m0); [now left | exact Heq].
    + split.
      * intros m Hm. destruct (IHsome m Hm) as (_ & Hday & before & after & Hsplit & Hbefore).
        repeat split; trivial.
        exists (m0 :: before), after. split; [now rewrite Hsplit |].
        intros m' [<- | Hin]; [exact Hneq | now apply Hbefore].
      * split.
        -- intros Hnone. right. intros m [<- | Hin]; [exact Hneq |].
           apply IHnone in Hnone. destruct Hnone as [Hoff | Hrest]; [discriminate |].
           now apply Hrest.
        -- intros [Hoff | Hnone]; [discriminate |].
           apply IHnone. right. intros m Hin. apply Hnone. now right.
Qed.

Lemma getMockConfig_lookup_witness :
  getMockConfig shippedWindow "day9" = None /\
  getMockConfig liveWindow "today" = None.
Proof.
  split.
  - apply (getMockConfig_lookup shippedWindow "day9"). right.
    intros m Hin. simpl in Hin.
    repeat (destruct Hin as [<- | Hin]; [discriminate |]). destruct Hin.
  - apply (getMockConfig_lookup liveWindow "today"). left. reflexivity.
Defined.

(** ** Which days carry a hazard *)

(** X14. For every day of a window: no hazard is reported exactly when
    none of the tests holds (no fire weather, maximum below 38, no heavy
    rain, minimum above zero, wind below 50); Extreme Heat is only
    reported without fire weather, Snow/Ice only with precipitation at a
    minimum of zero or below, Extreme Cold only without precipitation, and
    Strong Winds only for a day that is neither freezing nor at 38 degrees
    or more. *)
Theorem detectHazards_reports (weatherData : WeatherData) (i : nat) :
  (i < List.length (time (daily weatherData)))%nat ->
  let d := hazardInputs (daily weatherData) i in
  let h := hazardAt (detectHazards weatherData) i in
  let fire := (tempMax d >=? Fin 32) && (humidity d <=? Fin 30) && (wind d >=? Fin 25) in
  let heavyRain := (precipSum d >=? Fin 30) && (precipProb d >=? Fin 70) in
  (h = None <->
   fire = false /\ (tempMax d >=? Fin 38) = false /\ heavyRain = false /\
   (tempMin d <=? Fin 0) = false /\ (wind d >=? Fin 50) = false) /\
  (h = Some ExtremeHeat -> (tempMax d >=? Fin 38) = true /\ fire = false) /\
  (h = Some SnowIce ->
   (precipSum d >? Fin 0) = true /\ (tempMin d <=? Fin 0) = true /\
   (tempMax d >=? Fin 38) = false) /\
  (h = Some ExtremeCold ->
   (tempMin d <=? Fin 0) = true /\ (precipSum d >? Fin 0) = false) /\
  (h = Some StrongWinds ->
   (wind d >=? Fin 50) = true /\ (tempMin d <=? Fin 0) = false /\
   (tempMax d >=? Fin 38) = false).
Proof.
  intros Hi. cbn zeta. unfold hazardAt. rewrite (detectHazards_nth _ _ Hi).
  unfold detectHazard, hazardInputs.
  cbn [tempMax tempMin humidity wind precipSum precipProb].
  destruct (cell (apparent_temperature_max (daily weatherData)) i >=? Fin 32),
           (cell (relative_humidity_2m_mean (daily weatherData)) i <=? Fin 30),
           (cell (windspeed_10m_max (daily weatherData)) i >=? Fin 25),
           (cell (apparent_temperature_max (daily weatherData)) i >=? Fin 38),
           (cell (precipitation_sum (daily weatherData)) i >=? Fin 30),
           (cell (precipitation_probability_max (daily weatherData)) i >=? Fin 70),
           (cell (precipitation_sum (daily weatherData)) i >? Fin 0),
           (cell (apparent_temperature_min (daily weatherData)) i <=? Fin 0),
           (cell (windspeed_10m_max (daily weatherData)) i >=? Fin 50);
    cbn [andb]; repeat split; intros; try reflexivity; try discriminate;
    repeat match goal with H : _ /\ _ |- _ => destruct H end; discriminate.
Qed.

Lemma detectHazards_reports_witness :
  hazardAt (detectHazards sevenDays) 3 = Some StrongWinds /\
  (cell (apparent_temperature_min (daily sevenDays)) 3 <=? Fin 0) = false.
Proof.
  destruct (detectHazards_reports sevenDays 3) as (_ & _ & _ & _ & Hwind).
  - simpl. lia.
  - split; [reflexivity |]. apply Hwind. reflexivity.
Defined.

(** ** What rendering writes and what it leaves *)

Section RenderedTexts.

Context {TC : Type} (comparisons : ComparisonResult TC).

Lemma displayWeek_length (names : list string) :
  forall (index : nat) (dayItems : list DayItem),
    List.length (fst (displayWeek comparisons names index dayItems)) =
    List.length dayItems.
Proof.
  induction names as [| dayName rest IH]; intros index dayItems; simpl.
  - reflexivity.
  - destruct (nth_error dayItems index) as [dayItem |]; [| reflexivity].
    rewrite IH. apply length_setAt.
Qed.

(** Items past the last name are left alone. *)
Lemma displayWeek_after (names : list string) :
  forall (index : nat) (dayItems : list DayItem) (k : nat),
    (index + List.length names <= k)%nat ->
    nth_error (fst (displayWeek comparisons names index dayItems)) k =
    nth_error dayItems k.
Proof.
  induction names as [| dayName rest IH]; intros index dayItems k Hk; simpl in *.
  - reflexivity.
  - destruct (nth_error dayItems index) as [dayItem |]; [| reflexivity].
    rewrite IH by lia. apply nth_error_setAt_other. lia.
Qed.

(** The iteration throws when a name has no item on the page. *)
Lemma displayWeek_throws (names : list string) :
  forall (index : nat) (dayItems : list DayItem),
    (index <= List.length dayItems)%nat ->
    (List.length dayItems < index + List.length names)%nat ->
    snd (displayWeek comparisons names index dayItems) = Some TypeError.
Proof.
  induction names as [| dayName rest IH]; intros index dayItems Hle Hlt; simpl in *.
  - lia.
  - destruct (nth_error dayItems index) as [dayItem |] eqn:Hindex; [| reflexivity].
    assert (index < List.length dayItems)%nat
      by (apply nth_error_Some; congruence).
    apply IH; rewrite length_setAt; lia.
Qed.

Lemma displayDay_texts (dayName : string) (index : nat) (dayItem : DayItem) :
  day_name (displayDay comparisons dayName index dayItem) = dayName /\
  day_pfi (displayDay comparisons dayName index dayItem) =
    match nth_error (pfiValues (weekPFI comparisons)) index with
    | Some (Some n) => Degrees (round n)
    | Some None => Degrees (Fin 0)
    | None => Dashes
    end.
Proof.
  unfold displayDay.
  destruct (shownHazard (weekHazards comparisons) index);
    [| destruct (shownPrecipitation (weekPrecipitation comparisons) index)];
    cbn [day_name day_pfi]; (split; [reflexivity |]);
    destruct (nth_error (pfiValues (weekPFI comparisons)) index) as [[n |] |];
    reflexivity.
Qed.

Context `{HasComparison TC}.

(** [displayResults] piece by piece. *)
Lemma displayResults_parts (dom : Dom) :
  pfi_value (fst (displayResults comparisons dom)) =
    Degrees (round (todayPFI comparisons)) /\
  comparison_innerHTML (fst (displayResults comparisons dom)) =
    comparisonText (comparisonOf (todayComparison comparisons)) /\
  day_items (fst (displayResults comparisons dom)) =
    fst (displayWeek comparisons (dayNames (weekPFI comparisons)) 0 (day_items dom)) /\
  snd (displayResults comparisons dom) =
    snd (displayWeek comparisons (dayNames (weekPFI comparisons)) 0 (day_items dom)).
Proof.
  unfold displayResults.
  destruct (displayToday (todayHazard comparisons) (todayPrecipitation comparisons)
              (hazard_today dom) (precipitation_today dom)).
  destruct (displayWeek comparisons (dayNames (weekPFI comparisons)) 0 (day_items dom)).
  repeat split.
Qed.

Lemma displayResults_fst (dom : Dom) :
  fst (displayResults comparisons dom) =
  mkDom (Degrees (round (todayPFI comparisons)))
    (comparisonText (comparisonOf (todayComparison comparisons)))
    (snd (displayToday (todayHazard comparisons) (todayPrecipitation comparisons)
            (hazard_today dom) (precipitation_today dom)))
    (fst (displayToday (todayHazard comparisons) (todayPrecipitation comparisons)
            (hazard_today dom) (precipitation_today dom)))
    (fst (displayWeek comparisons (dayNames (weekPFI comparisons)) 0 (day_items dom))).
Proof.
  unfold displayResults.
  destruct (displayToday (todayHazard comparisons) (todayPrecipitation comparisons)
              (hazard_today dom) (precipitation_today dom)).
  destruct (displayWeek comparisons (dayNames (weekPFI comparisons)) 0 (day_items dom)).
  reflexivity.
Qed.

End RenderedTexts.

(** X15. [displayResults] writes today's rounded PFI and the sentence of
    the trend, keeps the number of day items, gives every item that has a
    name its name and its PFI text (the rounded value; 0 for a [null]
    entry; two dashes only when [pfiValues] is shorter than the names),
    and leaves every item past the last name as it was. *)
Theorem displayResults_writes_texts {TC : Type} `{HasComparison TC}
    (comparisons : ComparisonResult TC) (dom : Dom) :
  let rendered := fst (displayResults comparisons dom) in
  pfi_value rendered = Degrees (round (todayPFI comparisons)) /\
  comparison_innerHTML rendered =
    comparisonText (comparisonOf (todayComparison comparisons)) /\
  List.length (day_items rendered) = List.length (day_items dom) /\
  (forall (k : nat) (dayName : string),
     nth_error (dayNames (weekPFI comparisons)) k = Some dayName ->
     (k < List.length (day_items dom))%nat ->
     exists dayItem : DayItem,
       nth_error (day_items rendered) k = Some dayItem /\
       day_name dayItem = dayName /\
       day_pfi dayItem =
         match nth_error (pfiValues (weekPFI comparisons)) k with
         | Some (Some n) => Degrees (round n)
         | Some None => Degrees (Fin 0)
         | None => Dashes
         end) /\
  (forall k : nat,
     (List.length (dayNames (weekPFI comparisons)) <= k)%nat ->
     nth_error (day_items rendered) k = nth_error (day_items dom) k).
Proof.
  cbn zeta.
  destruct (displayResults_parts comparisons dom) as (Hpfi & Htext & Hitems & _).
  rewrite Hpfi, Htext, Hitems.
  split; [reflexivity |]. split; [reflexivity |].
  split; [apply displayWeek_length |]. split.
  - intros k dayName Hname Hitem.
    assert (Hk : (k < List.length (dayNames (weekPFI comparisons)))%nat)
      by (apply nth_error_Some; congruence).
    destruct (displayWeek_slot comparisons (dayNames (weekPFI comparisons)) 0
                (day_items dom) k) as (name' & dayItem & Hname' & _ & Hk');
      [lia | lia | exact Hitem |].
    rewrite Nat.sub_0_r, Hname in Hname'. injection Hname' as <-.
    eexists. split; [exact Hk' |]. apply displayDay_texts.
  - intros k Hk. apply displayWeek_after. simpl. exact Hk.
Qed.

Lemma displayResults_writes_texts_witness :
  exists dayItem : DayItem,
    nth_error (day_items (fst (displayResults hazardAndRain blankPage))) 1
      = Some dayItem /\
    day_name dayItem = "Tue" /\ day_pfi dayItem = Degrees (Fin 16).
Proof.
  destruct (displayResults_writes_texts hazardAndRain blankPage)
    as (_ & _ & _ & Hnamed & _).
  destruct (Hnamed 1%nat "Tue") as (dayItem & Hitem & Hname & Hpfi);
    [reflexivity | simpl; lia |].
  exists dayItem. repeat split; assumption.
Defined.

(** X16. [displayResults] ends with a TypeError exactly when the page has
    fewer day items than the result has day names, and without exception
    otherwise; before it throws, every item the page does have has been
    given its name. *)
Theorem displayResults_throws_iff {TC : Type} `{HasComparison TC}
    (comparisons : ComparisonResult TC) (dom : Dom) :
  (snd (displayResults comparisons dom) = Some TypeError <->
   (List.length (day_items dom) < List.length (dayNames (weekPFI comparisons)))%nat) /\
  (snd (displayResults comparisons dom) = None <->
   (List.length (dayNames (weekPFI comparisons)) <= List.length (day_items dom))%nat) /\
  (forall k : nat,
     (k < List.length (day_items dom))%nat ->
     (k < List.length (dayNames (weekPFI comparisons)))%nat ->
     exists dayItem : DayItem,
       nth_error (day_items (fst (displayResults comparisons dom))) k = Some dayItem /\
       nth_error (dayNames (weekPFI comparisons)) k = Some (day_name dayItem)).
Proof.
  destruct (displayResults_parts comparisons dom) as (_ & _ & Hitems & Hthrown).
  rewrite Hthrown, Hitems.
  assert (Hcases :
    (List.length (dayNames (weekPFI comparisons)) <= List.length (day_items dom))%nat /\
    snd (displayWeek comparisons (dayNames (weekPFI comparisons)) 0 (day_items dom)) = None
    \/
    (List.length (day_items dom) < List.length (dayNames (weekPFI comparisons)))%nat /\
    snd (displayWeek comparisons (dayNames (weekPFI comparisons)) 0 (day_items dom))
      = Some TypeError).
  { destruct (Nat.le_gt_cases (List.length (dayNames (weekPFI comparisons)))
                (List.length (day_items dom))) as [Hle | Hgt].
    - left. split; [exact Hle |]. apply displayWeek_completes. simpl. exact Hle.
    - right. split; [exact Hgt |]. apply displayWeek_throws; simpl; lia. }
  split; [| split].
  - destruct Hcases as [(Hle & ->) | (Hgt & ->)]; split; try discriminate; try lia; trivial.
  - destruct Hcases as [(Hle & ->) | (Hgt & ->)]; split; try discriminate; try lia; trivial.
  - intros k Hitem Hname.
    destruct (displayWeek_slot comparisons (dayNames (weekPFI comparisons)) 0
                (day_items dom) k) as (dayName & dayItem & Hname' & _ & Hk);
      [lia | lia | exact Hitem |].
    rewrite Nat.sub_0_r in Hname'.
    eexists. split; [exact Hk |].
    rewrite Hname'. f_equal. symmetry. apply displayDay_texts.
Qed.

Lemma displayResults_throws_iff_witness :
  snd (displayResults hazardAndRain
         (mkDom (PageText "--") "Loading..." (precipitation_today blankPage)
            (hazard_today blankPage) [blankItem; blankItem]))
    = Some TypeError /\
  snd (displayResults hazardAndRain blankPage) = None.
Proof.
  split.
  - apply (displayResults_throws_iff hazardAndRain). simpl. lia.
  - apply (displayResults_throws_iff hazardAndRain blankPage). simpl. lia.
Defined.

(** ** A seven-day window on the page *)

(** X17. When the live result of a 7-day window is rendered on a page
    with at least six day items, the sixth item shows a PFI of 0 (the
    [null] entry goes through [Math.round]), under the weekday of the wall
    clock date plus 6 days, with neither hazard nor precipitation. *)
Theorem seven_days_sixth_item_shows_zero (zone : TimeZone) (now : Date) (weatherData : WeatherData)
    (dom : Dom) :
  List.length (time (daily weatherData)) = 7%nat ->
  (6 <= List.length (day_items dom))%nat ->
  exists (r : ComparisonResult ComparisonData) (dayItem : DayItem),
    liveComparisons zone now weatherData = Ok r /\
    nth_error (day_items (fst (displayResults r dom))) 5 = Some dayItem /\
    day_pfi dayItem = Degrees (Fin 0) /\
    day_name dayItem = weekdayShort (addDays now 6) /\
    SlotShows (he_display (hazard_week dayItem))
              (pe_display (precipitation_week dayItem)) /\
    he_display (hazard_week dayItem) = display_none /\
    pe_display (precipitation_week dayItem) = display_none.
Proof.
  intros Hlen Hitems.
  destruct (liveComparisons_seven_last_slot zone now weatherData Hlen)
    as (r & Hok & _ & Hnull & Hprecip & Hhazard).
  destruct (liveComparisons_labels zone now weatherData) as (r' & Hok' & Hnames & _ & Hslot);
    [lia |].
  rewrite Hok in Hok'. injection Hok' as <-.
  destruct (Hslot 5%nat) as (Hlabel & _); [lia |].
  assert (Hd : nth_error (time (daily weatherData)) (5 + 2) = None)
    by (apply nth_error_None; lia).
  rewrite Hd in Hlabel.
  destruct (displayResults_parts r dom) as (_ & _ & Hrendered & _).
  destruct (displayWeek_slot r (dayNames (weekPFI r)) 0 (day_items dom) 5)
    as (dayName & dayItem & Hname & _ & Hk); [lia | lia | lia |].
  cbn [Nat.sub] in Hname. rewrite Hlabel in Hname. injection Hname as <-.
  exists r, (displayDay r (weekdayShort (addDays now (1 + 5))) 5 dayItem).
  split; [exact Hok |]. split; [now rewrite Hrendered |].
  unfold displayDay, shownHazard, shownPrecipitation.
  rewrite Hnull, Hprecip, Hhazard. cbn.
  repeat split. constructor.
Qed.

Lemma seven_days_sixth_item_shows_zero_witness :
  exists (r : ComparisonResult ComparisonData) (dayItem : DayItem),
    liveComparisons utc 19001%Z sevenDays = Ok r /\
    nth_error (day_items (fst (displayResults r blankPage))) 5 = Some dayItem /\
    day_pfi dayItem = Degrees (Fin 0).
Proof.
  destruct (seven_days_sixth_item_shows_zero utc 19001%Z sevenDays blankPage)
    as (r & dayItem & Hok & Hitem & Hpfi & _).
  - reflexivity.
  - simpl. lia.
  - exists r, dayItem. repeat split; assumption.
Defined.

(** ** The earlier variant *)

Lemma legacy_generateComparisons_enough (now : Date) (pfiData : list PfiDay)
    (currentTemp : number) (weatherData : WeatherData) :
  (7 <= List.length pfiData)%nat ->
  exists yesterday today : PfiDay,
    nth_error pfiData 0 = Some yesterday /\
    nth_error pfiData 1 = Some today /\
    Legacy.generateComparisons now pfiData currentTemp weatherData =
    Ok (mkComparisonResult (pfi today)
          (generateComparisonData (pfi today - pfi yesterday) "Today")
          (Legacy.generateWeekPFI now (slice1 pfiData))
          (precipDisplayOf (Some today))
          (map (fun i => precipDisplayOf (nth_error pfiData i))
               (seq 1 (List.length pfiData - 1)))
          (Legacy.getHazardDisplay (hazardAt (detectHazards weatherData) 1))
          (map (fun i => Legacy.getHazardDisplay
                           (hazardAt (detectHazards weatherData) i))
               (seq 1 (List.length (detectHazards weatherData) - 1)))).
Proof.
  intros Hlen. unfold Legacy.generateComparisons.
  destruct (Nat.ltb_spec (List.length pfiData) 7) as [Hlt | _]; [lia |].
  destruct pfiData as [| yesterday [| today rest]]; simpl in Hlen; try lia.
  exists yesterday, today. repeat split.
Qed.

Lemma nth_error_map_seq_from {A : Type} (f : nat -> A) (start len i : nat) :
  (i < len)%nat -> nth_error (map f (seq start len)) i = Some (f (start + i)%nat).
Proof.
  intros Hi. rewrite nth_error_map, nth_error_seq.
  apply Nat.ltb_lt in Hi. now rewrite Hi.
Qed.

Lemma legacy_liveComparisons_slots (now : Date) (weatherData : WeatherData) :
  (7 <= List.length (time (daily weatherData)))%nat ->
  exists r : ComparisonResult ComparisonData,
    Legacy.liveComparisons now weatherData = Ok r /\
    derivedPfi weatherData 1 = Some (todayPFI r) /\
    List.length (weekPrecipitation r) = (List.length (time (daily weatherData)) - 1)%nat /\
    List.length (weekHazards r) = (List.length (time (daily weatherData)) - 1)%nat /\
    forall i : nat, (i < 6)%nat ->
      nth_error (pfiValues (weekPFI r)) i = Some (derivedPfi weatherData (i + 1)) /\
      nth_error (weekPrecipitation r) i = Some (derivedPrecipitation weatherData (i + 1)) /\
      nth_error (weekHazards r) i =
        Some (Legacy.getHazardDisplay (hazardAt (detectHazards weatherData) (i + 1))) /\
      nth_error (dayNames (weekPFI r)) i = Some (weekdayShort (addDays now (1 + i))).
Proof.
  intros Hlen. unfold Legacy.liveComparisons. cbn zeta.
  pose proof Hlen as Hlen'. rewrite <- calculatePFI_length in Hlen'.
  destruct (legacy_generateComparisons_enough now _
              (current_temperature_2m weatherData) weatherData Hlen')
    as (y & t & _ & Ht & Hok).
  eexists. split; [exact Hok |].
  cbn [todayPFI weekPFI weekPrecipitation weekHazards].
  split; [unfold derivedPfi; now rewrite Ht |].
  rewrite !length_map, !length_seq, calculatePFI_length, detectHazards_length.
  split; [reflexivity |]. split; [reflexivity |].
  intros i Hi. unfold Legacy.generateWeekPFI. cbn [pfiValues dayNames].
  rewrite !nth_error_map_seq_from by lia.
  unfold slice1. rewrite nth_error_skipn.
  replace (1 + (0 + i))%nat with (i + 1)%nat by lia.
  replace (1 + i)%nat with (i + 1)%nat at 1 2 by lia.
  unfold derivedPfi, derivedPrecipitation.
  repeat split.
Qed.

(** X18. In the earlier copy of the script, for every window of at least
    7 days, slot i of the three forward arrays holds the values of day
    i + 1 of the window, so the first forward slot repeats today; the
    label of slot i is nevertheless the weekday of the wall clock date
    plus i + 1 days.  The precipitation and hazard arrays have one entry
    for every day but yesterday, not six. *)
Theorem legacy_forward_slots_start_today (now : Date) (weatherData : WeatherData) :
  (7 <= List.length (time (daily weatherData)))%nat ->
  exists r : ComparisonResult ComparisonData,
    Legacy.liveComparisons now weatherData = Ok r /\
    nth_error (pfiValues (weekPFI r)) 0 = Some (Some (todayPFI r)) /\
    List.length (weekPrecipitation r) = (List.length (time (daily weatherData)) - 1)%nat /\
    List.length (weekHazards r) = (List.length (time (daily weatherData)) - 1)%nat /\
    forall i : nat, (i < 6)%nat ->
      nth_error (pfiValues (weekPFI r)) i = Some (derivedPfi weatherData (i + 1)) /\
      nth_error (weekPrecipitation r) i = Some (derivedPrecipitation weatherData (i + 1)) /\
      nth_error (weekHazards r) i =
        Some (Legacy.getHazardDisplay (hazardAt (detectHazards weatherData) (i + 1))) /\
      nth_error (dayNames (weekPFI r)) i = Some (weekdayShort (addDays now (1 + i))).
Proof.
  intros Hlen.
  destruct (legacy_liveComparisons_slots now weatherData Hlen)
    as (r & Hok & Htoday & Hp & Hh & Hslot).
  exists r. split; [exact Hok |]. split.
  - destruct (Hslot 0%nat) as (Hpfi & _); [lia |].
    rewrite Hpfi. cbn [Nat.add]. now rewrite Htoday.
  - repeat split; trivial; now apply Hslot.
Qed.

Lemma legacy_forward_slots_start_today_witness :
  exists r : ComparisonResult ComparisonData,
    Legacy.liveComparisons 19001%Z eightDays = Ok r /\
    nth_error (pfiValues (weekPFI r)) 0 = Some (Some (todayPFI r)) /\
    List.length (weekPrecipitation r) = 7%nat.
Proof.
  destruct (legacy_forward_slots_start_today 19001%Z eightDays)
    as (r & Hok & Htoday & Hp & _).
  - simpl. lia.
  - exists r. repeat split; assumption.
Defined.

(** X19. The two copies of the script differ by one day in the forward
    series: for every window of at least 7 days and every i below 5, slot
    i of the current copy holds the PFI and the precipitation display that
    the earlier copy put in slot i + 1.  The two copies put the same label
    on slot i whenever the date string of day i + 2, parsed as midnight UTC
    and read in the local time zone, falls on the calendar date i + 1 days
    after the wall clock date; at or east of UTC that is the case when the
    window is read on the date of its day 1. *)
Theorem current_slots_are_legacy_slots_shifted (zone : TimeZone) (now : Date)
    (weatherData : WeatherData) :
  (7 <= List.length (time (daily weatherData)))%nat ->
  exists r r' : ComparisonResult ComparisonData,
    liveComparisons zone now weatherData = Ok r /\
    Legacy.liveComparisons now weatherData = Ok r' /\
    forall i : nat, (i < 5)%nat ->
      nth_error (pfiValues (weekPFI r)) i = nth_error (pfiValues (weekPFI r')) (i + 1) /\
      nth_error (weekPrecipitation r) i = nth_error (weekPrecipitation r') (i + 1) /\
      (forall d : Date,
         nth_error (time (daily weatherData)) (i + 2) = Some d ->
         localDate zone d = addDays now (1 + i) ->
         nth_error (dayNames (weekPFI r)) i = nth_error (dayNames (weekPFI r')) i).
Proof.
  intros Hlen.
  destruct (liveComparisons_aligned zone now weatherData Hlen) as (r & Hok & Haligned).
  destruct (liveComparisons_labels zone now weatherData Hlen)
    as (r0 & Hok0 & _ & _ & Hlabels).
  rewrite Hok in Hok0. injection Hok0 as <-.
  destruct (legacy_liveComparisons_slots now weatherData Hlen)
    as (r' & Hok' & _ & _ & _ & Hslot).
  exists r, r'. split; [exact Hok |]. split; [exact Hok' |].
  intros i Hi.
  destruct (Haligned i) as (Hpfi & Hprecip & _); [lia |].
  destruct (Hslot (i + 1)%nat) as (Hpfi' & Hprecip' & _); [lia |].
  destruct (Hslot i) as (_ & _ & _ & Hname'); [lia |].
  destruct (Hlabels i) as (Hname & _); [lia |].
  replace (i + 1 + 1)%nat with (i + 2)%nat in * by lia.
  repeat split; try congruence.
  intros d Hd Hnow. rewrite Hname, Hname', Hd, Hnow. reflexivity.
Qed.

Lemma current_slots_are_legacy_slots_shifted_witness :
  exists r r' : ComparisonResult ComparisonData,
    liveComparisons utc 19001%Z eightDays = Ok r /\
    Legacy.liveComparisons 19001%Z eightDays = Ok r' /\
    nth_error (pfiValues (weekPFI r)) 0 = nth_error (pfiValues (weekPFI r')) 1 /\
    nth_error (dayNames (weekPFI r)) 0 = nth_error (dayNames (weekPFI r')) 0.
Proof.
  destruct (current_slots_are_legacy_slots_shifted utc 19001%Z eightDays)
    as (r & r' & Hok & Hok' & Hshift).
  - simpl. lia.
  - exists r, r'. split; [exact Hok |]. split; [exact Hok' |].
    destruct (Hshift 0%nat) as (Hpfi & _ & Hname); [lia |].
    split; [exact Hpfi |].
    apply (Hname 19002%Z); reflexivity.
Defined.

(** ** One run of the app *)

Lemma showSamplePFI_nth (dayItems : list DayItem) :
  forall index k : nat,
    nth_error (showSamplePFI index dayItems) k =
    option_map
      (fun dayItem =>
         mkDayItem (day_name dayItem)
           (match nth_error samplePFI (index + k) with
            | Some v => Degrees v
            | None => PageText "undefined"
            end)
           (precipitation_week dayItem) (hazard_week dayItem))
      (nth_error dayItems k).
Proof.
  induction dayItems as [| dayItem rest IH]; intros index [| k]; simpl;
    try reflexivity.
  - now rewrite Nat.add_0_r.
  - rewrite IH. now rewrite Nat.add_succ_r.
Qed.

Lemma showSamplePFI_length (dayItems : list DayItem) :
  forall index : nat,
    List.length (showSamplePFI index dayItems) = List.length dayItems.
Proof.
  induction dayItems as [| dayItem rest IH]; intros index; simpl; auto.
Qed.

(** The [try] block in live mode, with the repeated progress texts folded
    into one. *)
Lemma runLive_outcome (zone : TimeZone) (now : Date) (fetched : result WeatherData) (dom : Dom) :
  runLive zone now fetched dom =
  match fetched with
  | Throw err => (showLoadingProgress dom, Some err)
  | Ok weatherData =>
      match liveComparisons zone now weatherData with
      | Throw err => (showLoadingProgress dom, Some err)
      | Ok comparisons => displayResults comparisons (showLoadingProgress dom)
      end
  end.
Proof.
  unfold runLive, liveComparisons. destruct fetched as [weatherData | err];
    reflexivity.
Qed.

Lemma runLive_fails (zone : TimeZone) (now : Date) (fetched : result WeatherData) (dom : Dom)
    (err : Error) :
  fetched = Throw err \/
  (exists weatherData : WeatherData,
     fetched = Ok weatherData /\
     (List.length (time (daily weatherData)) < 7)%nat /\
     err = notEnoughData) ->
  runLive zone now fetched dom = (showLoadingProgress dom, Some err).
Proof.
  intros [-> | (weatherData & -> & Hshort & ->)]; rewrite runLive_outcome.
  - reflexivity.
  - unfold liveComparisons. cbn zeta.
    rewrite generateComparisons_short by (now rewrite calculatePFI_length).
    reflexivity.
Qed.

Lemma runLive_succeeds (zone : TimeZone) (now : Date) (weatherData : WeatherData) (dom : Dom) :
  (7 <= List.length (time (daily weatherData)))%nat ->
  (6 <= List.length (day_items dom))%nat ->
  exists r : ComparisonResult ComparisonData,
    liveComparisons zone now weatherData = Ok r /\
    List.length (dayNames (weekPFI r)) = 6%nat /\
    runLive zone now (Ok weatherData) dom =
      (fst (displayResults r (showLoadingProgress dom)), None).
Proof.
  intros Hlen Hitems.
  destruct (liveComparisons_labels zone now weatherData Hlen) as (r & Hok & Hnames & _).
  exists r. split; [exact Hok |]. split; [exact Hnames |].
  rewrite runLive_outcome, Hok.
  destruct (displayResults_parts r (showLoadingProgress dom)) as (_ & _ & _ & Hthrown).
  rewrite displayWeek_completes in Hthrown by (simpl; lia).
  destruct (displayResults r (showLoadingProgress dom)) as [rendered thrown].
  simpl in *. now rewrite Hthrown.
Qed.

(** X20. A live run that cannot get its data, because the fetch fails or
    because the window has fewer than 7 days, ends with the error box on
    show ("Using sample data. API error: ..." with the message of the
    exception), the retry button on show when the page has one, 22 as
    today's PFI, the sample sentence, and the sample values 25, 20, 28,
    23, 26, 21 in the day items.  Nothing else is reset: the day names and
    every hazard and precipitation element keep what an earlier run left
    there.  The running flag is cleared. *)
Theorem initWeatherApp_falls_back_to_samples (window : Window) (zone : TimeZone) (now : Date)
    (fetched : result WeatherData) (app : App) (err : Error) :
  isWeatherAppRunning app = false ->
  TESTING_MODE window = false ->
  fetched = Throw err \/
  (exists weatherData : WeatherData,
     fetched = Ok weatherData /\
     (List.length (time (daily weatherData)) < 7)%nat /\
     err = notEnoughData) ->
  let after := initWeatherApp window zone now fetched app in
  isWeatherAppRunning after = false /\
  error_display after = box_block /\
  error_textContent after = UsingSampleData err /\
  retry_display after = showRetry (retry_display app) box_block /\
  pfi_value (page after) = Degrees (Fin 22) /\
  comparison_innerHTML (page after) = "<strong>Sample</strong> data<br>for testing" /\
  hazard_today (page after) = hazard_today (page app) /\
  precipitation_today (page after) = precipitation_today (page app) /\
  forall (k : nat) (dayItem : DayItem),
    nth_error (day_items (page app)) k = Some dayItem ->
    exists shown : DayItem,
      nth_error (day_items (page after)) k = Some shown /\
      day_pfi shown = match nth_error samplePFI k with
                      | Some v => Degrees v
                      | None => PageText "undefined"
                      end /\
      day_name shown = day_name dayItem /\
      hazard_week shown = hazard_week dayItem /\
      precipitation_week shown = precipitation_week dayItem.
Proof.
  intros Hidle Hlive Hfails. cbn zeta.
  unfold initWeatherApp. rewrite Hidle, Hlive.
  rewrite (runLive_fails zone now fetched (page app) err Hfails).
  cbn [showError isWeatherAppRunning error_display error_textContent retry_display
       page showFallbackData showLoadingProgress pfi_value comparison_innerHTML
       hazard_today precipitation_today day_items].
  repeat split.
  intros k dayItem Hk. rewrite showSamplePFI_nth, Hk. cbn [option_map Nat.add].
  eexists. repeat split.
Qed.

Lemma initWeatherApp_falls_back_to_samples_witness :
  let after :=
    initWeatherApp liveWindow utc 19001%Z (Ok hotDryWindyDay) freshApp in
  error_display after = box_block /\
  error_textContent after = UsingSampleData notEnoughData /\
  pfi_value (page after) = Degrees (Fin 22).
Proof.
  cbn zeta.
  destruct (initWeatherApp_falls_back_to_samples liveWindow utc 19001%Z
              (Ok hotDryWindyDay) freshApp notEnoughData)
    as (_ & Hshown & Htext & _ & Hpfi & _).
  - reflexivity.
  - reflexivity.
  - right. exists hotDryWindyDay. repeat split. simpl. lia.
  - repeat split; assumption.
Defined.

(** X21. A live run on a window of at least 7 days and a page with at
    least six day items ends without error: the error box is hidden, the
    page is the rendering of the live result (today's rounded PFI and the
    sentence of the trend in place of the progress text), and the running
    flag is cleared.  The retry button is not touched: one left on show by
    an earlier failure stays on show. *)
Theorem initWeatherApp_shows_live_result (window : Window) (zone : TimeZone) (now : Date)
    (weatherData : WeatherData) (app : App) :
  isWeatherAppRunning app = false ->
  TESTING_MODE window = false ->
  (7 <= List.length (time (daily weatherData)))%nat ->
  (6 <= List.length (day_items (page app)))%nat ->
  exists r : ComparisonResult ComparisonData,
    liveComparisons zone now weatherData = Ok r /\
    let after := initWeatherApp window zone now (Ok weatherData) app in
    isWeatherAppRunning after = false /\
    error_display after = box_none /\
    error_textContent after = error_textContent app /\
    retry_display after = retry_display app /\
    page after = fst (displayResults r (showLoadingProgress (page app))) /\
    pfi_value (page after) = Degrees (round (todayPFI r)) /\
    comparison_innerHTML (page after) = comparisonText (comparison (todayComparison r)).
Proof.
  intros Hidle Hlive Hlen Hitems.
  destruct (runLive_succeeds zone now weatherData (page app) Hlen Hitems)
    as (r & Hok & _ & Hrun).
  exists r. split; [exact Hok |]. cbn zeta.
  unfold initWeatherApp. rewrite Hidle, Hlive, Hrun.
  cbn [isWeatherAppRunning error_display error_textContent retry_display page].
  destruct (displayResults_parts r (showLoadingProgress (page app)))
    as (Hpfi & Htext & _).
  repeat split; assumption.
Qed.

Lemma initWeatherApp_shows_live_result_witness :
  exists r : ComparisonResult ComparisonData,
    liveComparisons utc 19001%Z eightDays = Ok r /\
    error_display (initWeatherApp liveWindow utc 19001%Z (Ok eightDays) freshApp)
      = box_none /\
    pfi_value (page (initWeatherApp liveWindow utc 19001%Z (Ok eightDays) freshApp))
      = Degrees (round (todayPFI r)).
Proof.
  destruct (initWeatherApp_shows_live_result liveWindow utc 19001%Z eightDays freshApp)
    as (r & Hok & _ & Hhidden & _ & _ & _ & Hpfi & _).
  - reflexivity.
  - reflexivity.
  - simpl. lia.
  - simpl. lia.
  - exists r. repeat split; assumption.
Defined.

(** *** Rendering over sample values *)

Section RenderOverSamples.

Context {TC : Type} (comparisons : ComparisonResult TC).

(** The callback reads the hazard and precipitation elements of an item,
    not its texts. *)
Lemma displayDay_ignores_texts (dayName : string) (index : nat) (a b : DayItem) :
  precipitation_week a = precipitation_week b /\ hazard_week a = hazard_week b ->
  displayDay comparisons dayName index a = displayDay comparisons dayName index b.
Proof.
  intros [Hp Hh]. unfold displayDay. now rewrite Hp, Hh.
Qed.

Lemma displayWeek_ignores_texts (names : list string) :
  forall (index : nat) (itemsA itemsB : list DayItem),
    List.length itemsA = List.length itemsB ->
    (forall k : nat, (k < index)%nat -> nth_error itemsA k = nth_error itemsB k) ->
    (forall (k : nat) (a b : DayItem),
       nth_error itemsA k = Some a -> nth_error itemsB k = Some b ->
       precipitation_week a = precipitation_week b /\ hazard_week a = hazard_week b) ->
    (List.length itemsA <= index + List.length names)%nat ->
    fst (displayWeek comparisons names index itemsA) =
    fst (displayWeek comparisons names index itemsB).
Proof.
  induction names as [| dayName rest IH];
    intros index itemsA itemsB Hlen Hbefore Hicons Hcover; simpl in *.
  - apply nth_error_ext. intros k.
    destruct (Nat.lt_ge_cases k index) as [Hk | Hk]; [now apply Hbefore |].
    transitivity (@None DayItem); [| symmetry]; apply nth_error_None; lia.
  - destruct (nth_error itemsA index) as [a |] eqn:Ha,
             (nth_error itemsB index) as [b |] eqn:Hb.
    + apply IH.
      * now rewrite !length_setAt.
      * intros k Hk. destruct (Nat.eq_dec k index) as [-> | Hneq].
        -- rewrite !nth_error_setAt_same
             by (apply nth_error_Some; congruence).
           f_equal. apply displayDay_ignores_texts. now apply (Hicons index).
        -- rewrite !nth_error_setAt_other by lia. apply Hbefore. lia.
      * intros k a' b' Ha' Hb'. destruct (Nat.eq_dec k index) as [-> | Hneq].
        -- rewrite nth_error_setAt_same in Ha', Hb'
             by (apply nth_error_Some; congruence).
           injection Ha' as <-. injection Hb' as <-.
           rewrite (displayDay_ignores_texts dayName index a b (Hicons index a b Ha Hb)).
           split; reflexivity.
        -- rewrite nth_error_setAt_other in Ha', Hb' by lia.
           now apply (Hicons k).
      * rewrite length_setAt. lia.
    + apply nth_error_None in Hb.
      assert (index < List.length itemsA)%nat by (apply nth_error_Some; congruence).
      lia.
    + apply nth_error_None in Ha.
      assert (index < List.length itemsB)%nat by (apply nth_error_Some; congruence).
      lia.
    + simpl. apply nth_error_ext. intros k.
      apply nth_error_None in Ha. apply nth_error_None in Hb.
      destruct (Nat.lt_ge_cases k index) as [Hk | Hk]; [now apply Hbefore |].
      transitivity (@None DayItem); [| symmetry]; apply nth_error_None; lia.
Qed.

Context `{HasComparison TC}.

(** Rendering after the sample values gives the page that rendering alone
    gives, when every day item has a name. *)
Lemma displayResults_over_samples (dom : Dom) :
  (List.length (day_items dom) <= List.length (dayNames (weekPFI comparisons)))%nat ->
  fst (displayResults comparisons (showLoadingProgress (showFallbackData dom))) =
  fst (displayResults comparisons dom).
Proof.
  intros Hcover.
  assert (Hweek :
    fst (displayWeek comparisons (dayNames (weekPFI comparisons)) 0
           (showSamplePFI 0 (day_items dom))) =
    fst (displayWeek comparisons (dayNames (weekPFI comparisons)) 0 (day_items dom))).
  { apply displayWeek_ignores_texts.
    - apply showSamplePFI_length.
    - intros k Hk. lia.
    - intros k a b Ha Hb. rewrite showSamplePFI_nth, Hb in Ha.
      injection Ha as <-. split; reflexivity.
    - rewrite showSamplePFI_length. simpl. exact Hcover. }
  rewrite !displayResults_fst.
  cbn [showLoadingProgress showFallbackData hazard_today precipitation_today
       day_items].
  now rewrite Hweek.
Qed.

End RenderOverSamples.

(** X22. Recovery leaves no sample value behind.  On a page with exactly
    six day items, when a live run has failed (fetch error or fewer than 7
    days) and [retryApp] then gets a window of at least 7 days, the page is
    the one a first successful run would have given; the error box and the
    retry button are hidden and the running flag is cleared. *)
Theorem retryApp_recovers (window : Window) (zone : TimeZone) (now now' : Date)
    (failing : result WeatherData) (err : Error) (weatherData : WeatherData)
    (app : App) :
  isWeatherAppRunning app = false ->
  TESTING_MODE window = false ->
  failing = Throw err \/
  (exists short : WeatherData,
     failing = Ok short /\
     (List.length (time (daily short)) < 7)%nat /\
     err = notEnoughData) ->
  (7 <= List.length (time (daily weatherData)))%nat ->
  List.length (day_items (page app)) = 6%nat ->
  let failed := initWeatherApp window zone now failing app in
  let retried := retryApp window zone now' (Ok weatherData) failed in
  page retried = page (initWeatherApp window zone now' (Ok weatherData) app) /\
  error_display retried = box_none /\
  retry_display retried = showRetry (retry_display app) box_none /\
  isWeatherAppRunning retried = false.
Proof.
  intros Hidle Hlive Hfails Hlen Hitems. cbn zeta.
  unfold retryApp, initWeatherApp. rewrite Hidle, Hlive.
  rewrite (runLive_fails zone now failing (page app) err Hfails).
  cbn [showError isWeatherAppRunning error_display error_textContent retry_display
       page].
  destruct (runLive_succeeds zone now' weatherData (page app) Hlen) as (r & Hok & Hnames & Hrun);
    [lia |].
  destruct (runLive_succeeds zone now' weatherData
              (showFallbackData (showLoadingProgress (page app))) Hlen)
    as (r' & Hok' & _ & Hrun').
  { cbn [showFallbackData day_items showLoadingProgress].
    rewrite showSamplePFI_length. lia. }
  rewrite Hok in Hok'. injection Hok' as <-.
  rewrite Hrun, Hrun'.
  cbn [page error_display retry_display isWeatherAppRunning].
  split.
  - rewrite displayResults_over_samples; [reflexivity |].
    cbn [showLoadingProgress day_items]. lia.
  - repeat split. now destruct (retry_display app).
Qed.

Lemma retryApp_recovers_witness :
  page (retryApp liveWindow utc 19002%Z (Ok eightDays)
          (initWeatherApp liveWindow utc 19001%Z (Throw (ErrorMsg "Request timed out"))
             freshApp))
  = page (initWeatherApp liveWindow utc 19002%Z (Ok eightDays) freshApp).
Proof.
  apply (retryApp_recovers liveWindow utc 19001%Z 19002%Z
           (Throw (ErrorMsg "Request timed out")) (ErrorMsg "Request timed out")
           eightDays freshApp).
  - reflexivity.
  - reflexivity.
  - left. reflexivity.
  - simpl. lia.
  - reflexivity.
Defined.

(** X23. In mock mode a run never consults the fetch, and on a page with
    at least six day items it ends without error exactly when the
    configuration has an entry for "today"; without one it falls back to
    the sample values with the error box on show. *)
Theorem initWeatherApp_mock_mode (window : Window) (zone : TimeZone) (now : Date)
    (fetched fetched' : result WeatherData) (app : App) :
  isWeatherAppRunning app = false ->
  TESTING_MODE window = true ->
  (6 <= List.length (day_items (page app)))%nat ->
  initWeatherApp window zone now fetched app = initWeatherApp window zone now fetched' app /\
  (error_display (initWeatherApp window zone now fetched app) = box_none <->
   getMockConfig window "today" <> None) /\
  (getMockConfig window "today" = None ->
   error_display (initWeatherApp window zone now fetched app) = box_block /\
   error_textContent (initWeatherApp window zone now fetched app)
     = UsingSampleData TypeError /\
   pfi_value (page (initWeatherApp window zone now fetched app)) = Degrees (Fin 22)).
Proof.
  intros Hidle Hmock Hitems.
  unfold initWeatherApp. rewrite Hidle, Hmock. split; [reflexivity |].
  unfold runMock.
  destruct (getMockConfig window "today") as [todayMock |] eqn:Htoday.
  - rewrite (generateMockComparisons_today window now todayMock Htoday).
    match goal with
    | |- context [displayResults ?c _] => set (r := c)
    end.
    destruct (displayResults_parts r (showLoadingProgress (showLoadingProgress (page app))))
      as (_ & _ & _ & Hthrown).
    rewrite displayWeek_completes in Hthrown by (simpl; lia).
    destruct (displayResults r (showLoadingProgress (showLoadingProgress (page app))))
      as [rendered thrown].
    simpl in Hthrown. subst thrown.
    cbn [error_display]. split; [| discriminate].
    split; [discriminate | reflexivity].
  - unfold generateMockComparisons. rewrite Htoday.
    cbn [showError error_display error_textContent page showFallbackData pfi_value].
    split; [| repeat split].
    split; [discriminate | congruence].
Qed.

Lemma initWeatherApp_mock_mode_witness :
  initWeatherApp shippedWindow utc 19001%Z (Throw (ErrorMsg "Request timed out")) freshApp
    = initWeatherApp shippedWindow utc 19001%Z (Ok eightDays) freshApp /\
  error_display
    (initWeatherApp shippedWindow utc 19001%Z (Throw (ErrorMsg "Request timed out"))
       freshApp) = box_none.
Proof.
  destruct (initWeatherApp_mock_mode shippedWindow utc 19001%Z
              (Throw (ErrorMsg "Request timed out")) (Ok eightDays) freshApp)
    as (Hsame & Hhidden & _).
  - reflexivity.
  - reflexivity.
  - simpl. lia.
  - split; [exact Hsame |]. apply Hhidden. discriminate.
Defined.
